(** * basic_rag/simple_rag_with_langchain.ipynb: the indexing pipeline

    A shallow embedding of the two functions the notebook defines,
    [replace_tab_with_space] and [convert_pdf_to_embeddings], together with
    the part of Python they rely on: [str.replace], objects that live in a
    store and are shared by reference, and exceptions that abort a run.

    The notebook delegates loading, splitting, embedding and storing to
    third-party classes (PyPDFLoader, RecursiveCharacterTextSplitter,
    HuggingFaceEmbeddings, Chroma).  Their code is not part of the notebook;
    they appear here as the fields of an interface, [Library], and every
    theorem about the pipeline holds for all its implementations. *)

From Stdlib Require Import ZArith NArith List Lia.
From stdpp Require Import base option list strings gmap.

Open Scope N_scope.

(** ** Python strings *)

(** A [str] is a sequence of Unicode code points. *)
Definition char : Type := N.
Definition str : Type := list char.

(** ['\t'] and [' '] *)
Definition TAB : char := 9.
Definition SPACE : char := 32.

Module PyStr.

(** [s.startswith(prefix)] *)
Fixpoint startswith (s prefix : str) {struct prefix} : bool :=
  match prefix, s with
  | [], _ => true
  | _ :: _, [] => false
  | p :: prefix', c :: s' => (c =? p) && startswith s' prefix'
  end.

(** The scan of [s.replace(old, new)] for a non-empty [old]: occurrences
    of [old] are found from left to right and do not overlap.  [skip]
    counts the characters of the occurrence just replaced that are still
    to be passed over. *)
Fixpoint replace_scan (old new : str) (skip : nat) (s : str) : str :=
  match s with
  | [] => []
  | c :: s' =>
      match skip with
      | S n => replace_scan old new n s'
      | O =>
          if startswith s old
          then new ++ replace_scan old new (length old - 1) s'
          else c :: replace_scan old new 0 s'
      end
  end.

(** [s.replace(old, new)]: every occurrence is replaced (no [count]
    argument).  An empty [old] matches before every character and at the
    end of the string. *)
Definition replace (s old new : str) : str :=
  match old with
  | [] => new ++ flat_map (fun c => c :: new) s
  | _ :: _ => replace_scan old new 0 s
  end.

End PyStr.

(** The right-hand side of the assignment in the loop of
    [replace_tab_with_space]: [page_content.replace('\t', ' ')].  It is the
    text normalisation of the pipeline. *)
Definition normalize (text : str) : str := PyStr.replace text [TAB] [SPACE].

(** What [normalize] does to one character. *)
Definition tab_to_space (c : char) : char := if c =? TAB then SPACE else c.

(** No ['\t'] in [s]. *)
Definition tab_free (s : str) : bool := forallb (fun c => negb (c =? TAB)) s.

(** String literals of the notebook, as code points. *)
Definition lit (s : string) : str :=
  map Ascii.N_of_ascii (String.list_ascii_of_string s).

(** ** Objects and the store *)

(** A value of a metadata dictionary. *)
Inductive pyval : Type :=
| VStr (s : str)
| VInt (n : Z).

(** langchain's [Document]: the text and a metadata dictionary.  The
    notebook reads and writes [page_content] only. *)
Record Document : Type := mkDocument {
  page_content : str;
  metadata : list (str * pyval)
}.

(** Python objects are shared by reference.  A location is the identity of
    an object; the store maps the locations in use to their objects. *)
Abbreviation loc := nat (only parsing).

Inductive object : Type :=
| ODocument (d : Document)
| OList (items : list loc).

Abbreviation store := (list object) (only parsing).

(** The document at [l], when [l] holds one. *)
Definition lookup_document (h : store) (l : loc) : option Document :=
  match h !! l with
  | Some (ODocument d) => Some d
  | _ => None
  end.

(** The items of the list at [l], when [l] holds one. *)
Definition lookup_list (h : store) (l : loc) : option (list loc) :=
  match h !! l with
  | Some (OList items) => Some items
  | _ => None
  end.

(** The documents a list of documents holds at the moment it is read. *)
Definition lookup_documents (h : store) (lst : loc) : option (list Document) :=
  items ← lookup_list h lst; mapM (lookup_document h) items.

(** A new list of new [Document] objects, as a library call returns it:
    the documents are allocated one after the other, then the list. *)
Definition alloc_documents (h : store) (ds : list Document) : loc * store :=
  ((length h + length ds)%nat,
   h ++ (ODocument <$> ds) ++ [OList (seq (length h) (length ds))]).

(** ** Exceptions, calls into the libraries, and the monad of a run *)

Inductive exn : Type :=
| AttributeError          (* the object has no [page_content] *)
| TypeError               (* the object is not a list of documents *)
| Raised (name : string)  (* raised inside a library, by class name *).

Inductive result (A : Type) : Type :=
| Ok (a : A)
| Raise (e : exn).
Arguments Ok {A} a.
Arguments Raise {A} e.

(** The calls the notebook makes into the libraries, with their arguments.
    A list argument is recorded by identity and by the documents it holds
    when the call is made. *)
Inductive event : Type :=
| CallPyPDFLoader (path : str)
| CallLoad
| CallRecursiveCharacterTextSplitter (chunk_size chunk_overlap : Z)
| CallSplitDocuments (documents : loc) (contents : list Document)
| CallHuggingFaceEmbeddings (model_name : str)
| CallChromaFromDocuments (texts : loc) (contents : list Document).

(** The state a run threads: the store, and the calls made so far, oldest
    first. *)
Record state : Type := mkState {
  heap : store;
  trace : list event
}.

(** A computation returns or raises, and leaves a state either way: the
    state of a run that raised tells what was done before the exception. *)
Definition M (A : Type) : Type := state -> result A * state.

Definition ret {A} (a : A) : M A := fun st => (Ok a, st).

Definition bind {A B} (m : M A) (k : A -> M B) : M B :=
  fun st =>
    match m st with
    | (Ok a, st') => k a st'
    | (Raise e, st') => (Raise e, st')
    end.

Notation "x <- m ;; k" := (bind m (fun x => k))
  (at level 100, m at next level, right associativity).

(** A library call: the call is recorded, then its outcome is the run's. *)
Definition call {A} (ev : event) (outcome : result A) : M A :=
  fun st => (outcome, mkState (heap st) (trace st ++ [ev])).

(** [doc.page_content] *)
Definition get_page_content (doc : loc) : M str :=
  fun st =>
    match lookup_document (heap st) doc with
    | Some d => (Ok (page_content d), st)
    | None => (Raise AttributeError, st)
    end.

(** [doc.page_content = text]: the object at [doc] is updated in place. *)
Definition set_page_content (doc : loc) (text : str) : M unit :=
  fun st =>
    match lookup_document (heap st) doc with
    | Some d =>
        (Ok tt,
         mkState (<[doc := ODocument (mkDocument text (metadata d))]> (heap st))
                 (trace st))
    | None => (Raise AttributeError, st)
    end.

(** [iter(lst)] on a list object.  The loop bodies of the notebook write
    documents only, never a list, so the items are read once. *)
Definition list_items (lst : loc) : M (list loc) :=
  fun st =>
    match lookup_list (heap st) lst with
    | Some items => (Ok items, st)
    | None => (Raise TypeError, st)
    end.

(** [for x in items: body(x)] *)
Fixpoint for_each (items : list loc) (body : loc -> M unit) : M unit :=
  match items with
  | [] => ret tt
  | x :: rest => _ <- body x ;; for_each rest body
  end.

(** A library reads the list of documents it is handed. *)
Definition read_documents (lst : loc) : M (list Document) :=
  fun st =>
    match lookup_documents (heap st) lst with
    | Some ds => (Ok ds, st)
    | None => (Raise TypeError, st)
    end.

(** A library hands back a new list of new documents. *)
Definition new_documents (ds : list Document) : M loc :=
  fun st =>
    let (l, h) := alloc_documents (heap st) ds in (Ok l, mkState h (trace st)).

(** ** The libraries *)

(** The classes the notebook imports and calls.  A constructor or method
    returns or raises.  Each is a function of its arguments: the libraries
    keep no state between the calls of one run that the notebook could
    observe, and they do not write to the documents they are handed.
    What a library keeps from one run to the next (the collection behind a
    Chroma store, a cache of models) is not modelled: the theorems are
    about one run, and say of the vector store only what it is built from.
    [RecursiveCharacterTextSplitter] stands for the constructor called with
    [length_function=len]. *)
Class Library : Type := {
  Loader : Type;
  Splitter : Type;
  Embeddings : Type;
  VectorStore : Type;
  PyPDFLoader : str -> result Loader;
  load : Loader -> result (list Document);
  RecursiveCharacterTextSplitter : Z -> Z -> result Splitter;
  split_documents : Splitter -> list Document -> result (list Document);
  HuggingFaceEmbeddings : str -> result Embeddings;
  Chroma_from_documents : list Document -> Embeddings -> result VectorStore
}.

(** ** The notebook's functions *)

Definition model_name : str := lit "sentence-transformers/all-mpnet-base-v2".

(** The document of the notebook. *)
Definition path : str := lit "../data/LLM_Inference_TGI_Adyen.pdf".

(** [[
    def replace_tab_with_space(list_of_documents):
        for doc in list_of_documents:
            doc.page_content = doc.page_content.replace('\t', ' ')
        return list_of_documents
    ]] *)
Definition replace_tab_with_space (list_of_documents : loc) : M loc :=
  items <- list_items list_of_documents ;;
  _ <- for_each items (fun doc =>
         text <- get_page_content doc ;;
         set_page_content doc (PyStr.replace text [TAB] [SPACE])) ;;
  ret list_of_documents.

Section Pipeline.

Context `{Lib : Library}.

(** [loader.load()] *)
Definition loader_load (loader : Loader) : M loc :=
  pages <- call CallLoad (load loader) ;;
  new_documents pages.

(** [text_splitter.split_documents(documents)] *)
Definition splitter_split_documents (text_splitter : Splitter) (documents : loc) : M loc :=
  contents <- read_documents documents ;;
  chunks <- call (CallSplitDocuments documents contents)
                 (split_documents text_splitter contents) ;;
  new_documents chunks.

(** [Chroma.from_documents(texts, embeddings)] *)
Definition chroma_from_documents (texts : loc) (embeddings : Embeddings) : M VectorStore :=
  contents <- read_documents texts ;;
  call (CallChromaFromDocuments texts contents)
       (Chroma_from_documents contents embeddings).

(** [[
    def convert_pdf_to_embeddings(path, chunk_size=1000, chunk_overlap=200):
        loader = PyPDFLoader(path)
        documents = loader.load()
        text_splitter = RecursiveCharacterTextSplitter(
            chunk_size=chunk_size, chunk_overlap=chunk_overlap, length_function=len)
        texts = text_splitter.split_documents(documents)
        cleaned_texts = replace_tab_with_space(texts)
        embeddings = HuggingFaceEmbeddings(model_name=...)
        vectorstore = Chroma.from_documents(texts, embeddings)
        return vectorstore
    ]] *)
Definition convert_pdf_to_embeddings (path : str) (chunk_size chunk_overlap : Z) : M VectorStore :=
  loader <- call (CallPyPDFLoader path) (PyPDFLoader path) ;;
  documents <- loader_load loader ;;
  text_splitter <- call (CallRecursiveCharacterTextSplitter chunk_size chunk_overlap)
                        (RecursiveCharacterTextSplitter chunk_size chunk_overlap) ;;
  texts <- splitter_split_documents text_splitter documents ;;
  cleaned_texts <- replace_tab_with_space texts ;;
  embeddings <- call (CallHuggingFaceEmbeddings model_name)
                     (HuggingFaceEmbeddings model_name) ;;
  vectorstore <- chroma_from_documents texts embeddings ;;
  ret vectorstore.

(** [chunks_vector_store = convert_pdf_to_embeddings(path, chunk_size=500, chunk_overlap=50)] *)
Definition chunks_vector_store : M VectorStore :=
  convert_pdf_to_embeddings path 500 50.

End Pipeline.

(** ** What the pipeline does to a chunk *)

(** A document after the loop body of [replace_tab_with_space]. *)
Definition clean_document (d : Document) : Document :=
  mkDocument (normalize (page_content d)) (metadata d).

(** The loop body as a function on objects; a list is no document and is
    never written. *)
Definition clean_object (o : object) : object :=
  match o with
  | ODocument d => ODocument (clean_document d)
  | OList items => OList items
  end.

(** The store after the loop has visited [items]. *)
Definition clean_store (h : store) (items : list loc) : store :=
  foldl (fun h' l => alter clean_object l h') h items.

Definition documents_tab_free (ds : list Document) : bool :=
  forallb (fun d => tab_free (page_content d)) ds.

(** ** Observations on a run *)

(** The calls a run has added to the trace of the state it started from. *)
Definition calls_of {A} (st : state) (out : result A * state) : list event :=
  drop (length (trace st)) (trace out.2).

(** The arguments were rejected before any work began: the run raised and
    has neither called a library nor touched the store. *)
Definition rejected_eagerly {A} (st : state) (out : result A * state) : Prop :=
  (exists e, out.1 = Raise e) /\ out.2 = st.

(** Every text handed to the splitter was normalised beforehand. *)
Definition splitter_input_tab_free (tr : list event) : bool :=
  forallb (fun ev =>
             match ev with
             | CallSplitDocuments _ contents => documents_tab_free contents
             | _ => true
             end) tr.

(** The objects of a run that loads [pages] and splits them into [chunks]:
    the list [documents] and the store once the pages are loaded, the list
    [texts] and the store once the chunks are made, and the store once
    [replace_tab_with_space] has returned. *)
Definition documents_of (st : state) (pages : list Document) : loc :=
  (alloc_documents (heap st) pages).1.
Definition store_loaded (st : state) (pages : list Document) : store :=
  (alloc_documents (heap st) pages).2.
Definition texts_of (st : state) (pages chunks : list Document) : loc :=
  (alloc_documents (store_loaded st pages) chunks).1.
Definition store_split (st : state) (pages chunks : list Document) : store :=
  (alloc_documents (store_loaded st pages) chunks).2.
Definition store_cleaned (st : state) (pages chunks : list Document) : store :=
  clean_store (store_split st pages chunks)
              (seq (length (store_loaded st pages)) (length chunks)).

(** ** A small library to run the pipeline on concrete inputs *)

Module Stub.

(** Windows of [size] characters that start every [stride] characters. *)
Fixpoint windows (fuel size stride : nat) (s : str) : list str :=
  match fuel with
  | O => []
  | S fuel' =>
      match s with
      | [] => []
      | _ :: _ =>
          if (length s <=? size)%nat then [s]
          else take size s :: windows fuel' size stride (drop stride s)
      end
  end.

(** Modelled from the spec: the check of the Chunker's constraints,
    [chunk_size > 0] and [0 <= chunk_overlap < chunk_size].  The code of
    the splitter's constructor is not in the notebook. *)
Definition valid_configuration (chunk_size chunk_overlap : Z) : bool :=
  (0 <? chunk_size)%Z && (0 <=? chunk_overlap)%Z && (chunk_overlap <? chunk_size)%Z.

Definition split_document (cfg : Z * Z) (d : Document) : list Document :=
  let size := Z.to_nat cfg.1 in
  let stride := Z.to_nat (cfg.1 - cfg.2) in
  (fun text => mkDocument text (metadata d))
    <$> windows (length (page_content d)) size stride (page_content d).

(** The loader yields [pages] for every path; the splitter cuts windows;
    the vector store is the list of the documents it was built from. *)
Definition library (pages : list Document) : Library := {|
  Loader := str;
  Splitter := Z * Z;
  Embeddings := str;
  VectorStore := list Document;
  PyPDFLoader path := Ok path;
  load _ := Ok pages;
  RecursiveCharacterTextSplitter chunk_size chunk_overlap :=
    if valid_configuration chunk_size chunk_overlap
    then Ok (chunk_size, chunk_overlap)
    else Raise (Raised "ValueError");
  split_documents cfg ds := Ok (flat_map (split_document cfg) ds);
  HuggingFaceEmbeddings name := Ok name;
  Chroma_from_documents ds _ := Ok ds
|}.

(** Two pages, with tabs as a PDF extraction leaves them. *)
Definition page0 : Document :=
  mkDocument (lit "LLM" ++ [TAB] ++ lit "inference at" ++ [TAB] ++ lit "scale")
             [(lit "page", VInt 0)].
Definition page1 : Document :=
  mkDocument (lit "with TGI") [(lit "page", VInt 1)].

Definition pages : list Document := [page0; page1].

Definition empty_state : state := mkState [] [].

End Stub.

(** A store in which a list holds the same document twice. *)
Definition shared_state : state :=
  mkState [ODocument Stub.page0; OList [0%nat; 0%nat]] [].

(** ** More observations on a run *)

(** The place of a library call in the body of [convert_pdf_to_embeddings]. *)
Definition call_rank (ev : event) : nat :=
  match ev with
  | CallPyPDFLoader _ => 0
  | CallLoad => 1
  | CallRecursiveCharacterTextSplitter _ _ => 2
  | CallSplitDocuments _ _ => 3
  | CallHuggingFaceEmbeddings _ => 4
  | CallChromaFromDocuments _ _ => 5
  end.

(** What a second reference to a document sees once the loop has visited
    [items]: the document cleaned if the loop came by it, as it was if not. *)
Definition seen_after_cleaning (items : list loc) (l : loc) (d : Document) : Document :=
  if bool_decide (l ∈ items) then clean_document d else d.

(** A list of a document, of the list itself, and of a second document. *)
Definition mixed_state : state :=
  mkState [ODocument Stub.page0; OList [0%nat; 1%nat; 2%nat]; ODocument Stub.page0] [].

(** Two lists that share their first document. *)
Definition aliased_state : state :=
  mkState [ODocument Stub.page0; ODocument Stub.page0;
           OList [0%nat]; OList [0%nat; 1%nat]] [].

(** Sequencing of outcomes: the first exception is the outcome. *)
Definition and_then {A B} (r : result A) (k : A -> result B) : result B :=
  match r with
  | Ok a => k a
  | Raise e => Raise e
  end.

(** The library calls of one run of [convert_pdf_to_embeddings], composed
    on values with no store of documents: load the pages, split them, clean
    every chunk, build the vector store from the cleaned chunks. *)
Definition pipeline_outcome `{Lib : Library}
    (path : str) (chunk_size chunk_overlap : Z) : result VectorStore :=
  and_then (PyPDFLoader path) (fun loader =>
  and_then (load loader) (fun pages =>
  and_then (RecursiveCharacterTextSplitter chunk_size chunk_overlap) (fun text_splitter =>
  and_then (split_documents text_splitter pages) (fun chunks =>
  and_then (HuggingFaceEmbeddings model_name) (fun embeddings =>
  Chroma_from_documents (clean_document <$> chunks) embeddings))))).

(** The library call of rank [k] is the first one that raises, and it
    raises [e]: every call before it has returned. *)
Definition raised_by `{Lib : Library}
    (path : str) (chunk_size chunk_overlap : Z) (k : nat) (e : exn) : Prop :=
  match k with
  | 0%nat => PyPDFLoader path = Raise e
  | 1%nat =>
      exists loader, PyPDFLoader path = Ok loader /\ load loader = Raise e
  | 2%nat =>
      exists loader pages,
        PyPDFLoader path = Ok loader /\ load loader = Ok pages /\
        RecursiveCharacterTextSplitter chunk_size chunk_overlap = Raise e
  | 3%nat =>
      exists loader pages text_splitter,
        PyPDFLoader path = Ok loader /\ load loader = Ok pages /\
        RecursiveCharacterTextSplitter chunk_size chunk_overlap = Ok text_splitter /\
        split_documents text_splitter pages = Raise e
  | 4%nat =>
      exists loader pages text_splitter chunks,
        PyPDFLoader path = Ok loader /\ load loader = Ok pages /\
        RecursiveCharacterTextSplitter chunk_size chunk_overlap = Ok text_splitter /\
        split_documents text_splitter pages = Ok chunks /\
        HuggingFaceEmbeddings model_name = Raise e
  | 5%nat =>
      exists loader pages text_splitter chunks embeddings,
        PyPDFLoader path = Ok loader /\ load loader = Ok pages /\
        RecursiveCharacterTextSplitter chunk_size chunk_overlap = Ok text_splitter /\
        split_documents text_splitter pages = Ok chunks /\
        HuggingFaceEmbeddings model_name = Ok embeddings /\
        Chroma_from_documents (clean_document <$> chunks) embeddings = Raise e
  | _ => False
  end.

(** [Stub.library] on a machine without a network: the embedding model
    cannot be fetched, and its constructor raises. *)
Definition offline_library (pages : list Document) : Library := {|
  Loader := str;
  Splitter := Z * Z;
  Embeddings := str;
  VectorStore := list Document;
  PyPDFLoader path := Ok path;
  load _ := Ok pages;
  RecursiveCharacterTextSplitter chunk_size chunk_overlap :=
    if Stub.valid_configuration chunk_size chunk_overlap
    then Ok (chunk_size, chunk_overlap)
    else Raise (Raised "ValueError");
  split_documents cfg ds := Ok (flat_map (Stub.split_document cfg) ds);
  HuggingFaceEmbeddings _ := Raise (Raised "OSError");
  Chroma_from_documents ds _ := Ok ds
|}.

(** ** The cell "Read environment variables" *)

(** What the cell needs of the process it runs in: the line the user types
    at a prompt, or the exception of an input that cannot be read; and the
    check [os.environ] makes of a value before it stores it ([None] when
    the value is accepted). *)
Class Host : Type := {
  input : str -> result str;
  putenv_error : str -> option exn
}.

(** [os.environ], and the prompts shown so far, oldest first. *)
Record process : Type := mkProcess {
  environ : gmap str str;
  prompts : list str
}.

Definition OPENAI_API_KEY : str := lit "OPENAI_API_KEY".
Definition api_key_prompt : str := lit "Please enter your OpenAI API key: ".

(** [os.getenv(key)]: [None] when the variable is not set. *)
Definition getenv (key : str) (p : process) : option str := environ p !! key.

(** The truth value of [os.getenv(key)]: [None] and [''] are false. *)
Definition truth (v : option str) : bool :=
  match v with
  | Some (_ :: _) => true
  | _ => false
  end.

Section EnvironmentCell.

Context `{H : Host}.

(** [os.environ[key] = value]; assigning [None] is a [TypeError]. *)
Definition environ_setitem (key : str) (value : option str) (p : process)
  : result unit * process :=
  match value with
  | None => (Raise TypeError, p)
  | Some v =>
      match putenv_error v with
      | Some e => (Raise e, p)
      | None => (Ok tt, mkProcess (<[key := v]> (environ p)) (prompts p))
      end
  end.

(** [input(text)] *)
Definition prompt_input (text : str) (p : process) : result str * process :=
  (input text, mkProcess (environ p) (prompts p ++ [text])).

(** [[
    if not os.getenv('OPENAI_API_KEY'):
        os.environ["OPENAI_API_KEY"] = input("Please enter your OpenAI API key: ")
    else:
        os.environ["OPENAI_API_KEY"] = os.getenv('OPENAI_API_KEY')
    ]] *)
Definition read_environment_variables (p : process) : result unit * process :=
  if negb (truth (getenv OPENAI_API_KEY p)) then
    match prompt_input api_key_prompt p with
    | (Ok answer, p') => environ_setitem OPENAI_API_KEY (Some answer) p'
    | (Raise e, p') => (Raise e, p')
    end
  else
    environ_setitem OPENAI_API_KEY (getenv OPENAI_API_KEY p) p.

End EnvironmentCell.

(** A host whose user types [answer] and whose environment takes every
    value without a NUL character. *)
Definition typing_host (answer : str) : Host := {|
  input _ := Ok answer;
  putenv_error v :=
    if existsb (fun c => c =? 0) v then Some (Raised "ValueError") else None
|}.

(** ** The text normaliser *)

Section Normalize.

Lemma replace_scan_tab (s : str) :
  PyStr.replace_scan [TAB] [SPACE] 0 s = map tab_to_space s.
Proof.
  induction s as [|c s IH]; [reflexivity|].
  cbn [PyStr.replace_scan PyStr.startswith length Nat.sub map].
  unfold tab_to_space at 1.
  rewrite andb_true_r. destruct (c =? TAB); cbn; now rewrite IH.
Qed.

Lemma normalize_map (s : str) : normalize s = map tab_to_space s.
Proof. apply replace_scan_tab. Qed.

Lemma tab_to_space_not_tab (c : char) : (tab_to_space c =? TAB) = false.
Proof.
  unfold tab_to_space. destruct (c =? TAB) eqn:E; [reflexivity | exact E].
Qed.

Lemma tab_to_space_idem (c : char) : tab_to_space (tab_to_space c) = tab_to_space c.
Proof.
  unfold tab_to_space at 1. now rewrite tab_to_space_not_tab.
Qed.

Lemma normalize_length (s : str) : length (normalize s) = length s.
Proof. rewrite normalize_map. apply length_map. Qed.

Lemma normalize_tab_free (s : str) : tab_free (normalize s) = true.
Proof.
  rewrite normalize_map. unfold tab_free.
  induction s as [|c s IH]; [reflexivity|].
  cbn. now rewrite tab_to_space_not_tab, IH.
Qed.

Lemma normalize_idem (s : str) : normalize (normalize s) = normalize s.
Proof.
  rewrite !normalize_map, map_map.
  apply map_ext. intros c. apply tab_to_space_idem.
Qed.

Lemma normalize_lookup (s : str) (i : nat) :
  normalize s !! i = tab_to_space <$> s !! i.
Proof. rewrite normalize_map. apply list_lookup_fmap. Qed.

(** A tab-free text is left as it is. *)
Lemma normalize_id_of_tab_free (s : str) :
  tab_free s = true -> normalize s = s.
Proof.
  rewrite normalize_map. unfold tab_free.
  induction s as [|c s IH]; [reflexivity|].
  cbn. intros [Hc Hs]%andb_true_iff.
  rewrite IH by exact Hs. unfold tab_to_space.
  destruct (c =? TAB); [discriminate | reflexivity].
Qed.

End Normalize.

Example replace_non_overlapping :
  PyStr.replace [97; 97; 97; 98] [97; 97] [45] = [45; 97; 98].
Proof. reflexivity. Qed.

Example replace_longer_pattern :
  PyStr.replace [120; 9; 9; 121; 9] [9; 9] [32] = [120; 32; 121; 9].
Proof. reflexivity. Qed.

Example replace_empty_pattern :
  PyStr.replace [97; 98] [] [45] = [45; 97; 45; 98; 45].
Proof. reflexivity. Qed.

Example normalize_example :
  normalize [104; 9; 105; 9; 9; 33] = [104; 32; 105; 32; 32; 33].
Proof. reflexivity. Qed.

(** ** Documents in the store *)

Section Store.

Implicit Types (h : store) (l lst : loc) (d : Document) (ds : list Document).

Lemma clean_document_tab_free d : tab_free (page_content (clean_document d)) = true.
Proof. apply normalize_tab_free. Qed.

Lemma clean_document_idem d : clean_document (clean_document d) = clean_document d.
Proof. unfold clean_document; cbn. now rewrite normalize_idem. Qed.

Lemma clean_document_length d :
  length (page_content (clean_document d)) = length (page_content d).
Proof. apply normalize_length. Qed.

Lemma clean_object_idem (o : object) : clean_object (clean_object o) = clean_object o.
Proof. destruct o; cbn; [now rewrite clean_document_idem | reflexivity]. Qed.

Lemma clean_documents_tab_free ds : documents_tab_free (clean_document <$> ds) = true.
Proof.
  unfold documents_tab_free. induction ds as [|d ds IH]; [reflexivity|].
  cbn. now rewrite normalize_tab_free, IH.
Qed.

Lemma lookup_document_Some h l d :
  lookup_document h l = Some d <-> h !! l = Some (ODocument d).
Proof.
  unfold lookup_document. destruct (h !! l) as [[d'|items]|]; split; congruence.
Qed.

Lemma lookup_list_Some h l items :
  lookup_list h l = Some items <-> h !! l = Some (OList items).
Proof.
  unfold lookup_list. destruct (h !! l) as [[d'|items']|]; split; congruence.
Qed.

Lemma lookup_documents_Some h lst ds :
  lookup_documents h lst = Some ds <->
  exists items, h !! lst = Some (OList items) /\
                Forall2 (fun l d => h !! l = Some (ODocument d)) items ds.
Proof.
  unfold lookup_documents. split.
  - intros H. apply bind_Some in H as (items & Hl & Hm).
    exists items. split; [now apply lookup_list_Some|].
    apply mapM_Some in Hm.
    eapply Forall2_impl; [exact Hm|]. intros l d. apply lookup_document_Some.
  - intros (items & Hl & Hm). apply bind_Some. exists items.
    split; [now apply lookup_list_Some|].
    apply mapM_Some. eapply Forall2_impl; [exact Hm|].
    intros l d. apply lookup_document_Some.
Qed.

(** Writing [page_content] is the loop body's effect on the object. *)
Lemma insert_clean_document h l d :
  h !! l = Some (ODocument d) ->
  <[l := ODocument (clean_document d)]> h = alter clean_object l h.
Proof.
  intros Hl. apply list_eq. intros i.
  destruct (decide (i = l)) as [->|Hne].
  - rewrite list_lookup_insert_eq by (eapply lookup_lt_Some; exact Hl).
    rewrite list_lookup_alter_eq, Hl. reflexivity.
  - rewrite list_lookup_insert_ne by congruence.
    rewrite list_lookup_alter_ne by congruence. reflexivity.
Qed.

Lemma clean_store_cons h l items :
  clean_store h (l :: items) = clean_store (alter clean_object l h) items.
Proof. reflexivity. Qed.

Lemma clean_store_length h items : length (clean_store h items) = length h.
Proof.
  revert h. induction items as [|x items IH]; intros h; [reflexivity|].
  rewrite clean_store_cons, IH. apply length_alter.
Qed.

(** An object the loop visits is cleaned, however often it occurs in the
    list; every other object is left as it was. *)
Lemma clean_store_lookup h items l :
  clean_store h items !! l =
  if decide (l ∈ items) then clean_object <$> h !! l else h !! l.
Proof.
  revert h. induction items as [|x items IH]; intros h.
  - cbn. destruct (decide (l ∈ [])) as [Hin|_]; [|reflexivity].
    now apply elem_of_nil in Hin.
  - rewrite clean_store_cons, IH.
    destruct (decide (x = l)) as [->|Hne].
    + rewrite list_lookup_alter_eq.
      destruct (decide (l ∈ l :: items)) as [_|Hn]; [|exfalso; apply Hn; left].
      destruct (decide (l ∈ items)); [|reflexivity].
      destruct (h !! l) as [o|]; cbn; [now rewrite clean_object_idem | reflexivity].
    + rewrite list_lookup_alter_ne by exact Hne.
      destruct (decide (l ∈ items)) as [Hin|Hn];
        destruct (decide (l ∈ x :: items)) as [Hin'|Hn']; try reflexivity.
      * exfalso. apply Hn'. now right.
      * exfalso. apply elem_of_cons in Hin' as [->|Hin']; [now apply Hne | now apply Hn].
Qed.

Lemma clean_store_lookup_list h items lst its :
  h !! lst = Some (OList its) -> clean_store h items !! lst = Some (OList its).
Proof.
  intros Hl. rewrite clean_store_lookup, Hl. now destruct (decide (lst ∈ items)).
Qed.

Lemma clean_store_lookup_document h items l d :
  l ∈ items -> h !! l = Some (ODocument d) ->
  clean_store h items !! l = Some (ODocument (clean_document d)).
Proof.
  intros Hin Hl. rewrite clean_store_lookup, Hl.
  destruct (decide (l ∈ items)); [reflexivity | contradiction].
Qed.

(** After the loop the list holds the same objects, each one cleaned. *)
Lemma clean_store_lookup_documents h lst items ds :
  h !! lst = Some (OList items) ->
  lookup_documents h lst = Some ds ->
  lookup_documents (clean_store h items) lst = Some (clean_document <$> ds).
Proof.
  intros Hl Hds. apply lookup_documents_Some in Hds as (items' & Hl' & Hall).
  assert (items' = items) as -> by congruence.
  apply lookup_documents_Some. exists items.
  split; [now apply clean_store_lookup_list|].
  apply Forall2_same_length_lookup. split.
  - rewrite length_fmap. eapply Forall2_length; exact Hall.
  - intros i l d' Hi Hd'.
    rewrite list_lookup_fmap in Hd'.
    destruct (ds !! i) as [d|] eqn:Hd; [|discriminate].
    injection Hd' as <-.
    apply clean_store_lookup_document.
    + eapply list_elem_of_lookup_2; exact Hi.
    + exact (Forall2_lookup_lr (fun l d => h !! l = Some (ODocument d))
               _ _ _ _ _ Hall Hi Hd).
Qed.

(** A list a library hands back reads as the documents it was made of. *)
Lemma alloc_documents_lookup h ds :
  lookup_documents (alloc_documents h ds).2 (alloc_documents h ds).1 = Some ds.
Proof.
  unfold alloc_documents; cbn [fst snd].
  apply lookup_documents_Some. exists (seq (length h) (length ds)). split.
  - rewrite lookup_app_r by lia.
    rewrite lookup_app_r by (rewrite length_fmap; lia).
    rewrite length_fmap.
    replace (length h + length ds - length h - length ds)%nat with 0%nat by lia.
    reflexivity.
  - apply Forall2_same_length_lookup. split; [apply length_seq|].
    intros i l d Hi Hd. apply lookup_seq in Hi as [-> Hlt].
    rewrite lookup_app_r by lia.
    replace (length h + i - length h)%nat with i by lia.
    rewrite lookup_app_l by (rewrite length_fmap; exact Hlt).
    now rewrite list_lookup_fmap, Hd.
Qed.

Lemma alloc_documents_lookup_list h ds :
  (alloc_documents h ds).2 !! (alloc_documents h ds).1
  = Some (OList (seq (length h) (length ds))).
Proof.
  pose proof (alloc_documents_lookup h ds) as H.
  apply lookup_documents_Some in H as (items & Hl & _).
  unfold alloc_documents in *; cbn [fst snd] in *.
  rewrite Hl. f_equal. f_equal.
  rewrite lookup_app_r in Hl by lia.
  rewrite lookup_app_r in Hl by (rewrite length_fmap; lia).
  rewrite length_fmap in Hl.
  replace (length h + length ds - length h - length ds)%nat with 0%nat in Hl by lia.
  cbn in Hl. congruence.
Qed.

(** Allocation leaves the objects already in the store alone. *)
Lemma alloc_documents_old h ds l :
  (l < length h)%nat -> (alloc_documents h ds).2 !! l = h !! l.
Proof. intros Hlt. unfold alloc_documents; cbn. now apply lookup_app_l. Qed.

End Store.

(** ** Running computations *)

Section Runs.

Context {A B : Type}.
Implicit Types (st : state) (k : A -> M B).

Lemma bind_assoc {C} (m : M C) (f : C -> M A) k st :
  bind (bind m f) k st = bind m (fun x => bind (f x) k) st.
Proof. unfold bind. destruct (m st) as [[c|e] st']; reflexivity. Qed.

Lemma bind_ret_r (m : M A) st : bind m ret st = m st.
Proof. unfold bind, ret. destruct (m st) as [[a|e] st']; reflexivity. Qed.

Lemma run_call ev (outcome : result A) k st :
  bind (call ev outcome) k st =
  match outcome with
  | Ok a => k a (mkState (heap st) (trace st ++ [ev]))
  | Raise e => (Raise e, mkState (heap st) (trace st ++ [ev]))
  end.
Proof. unfold bind, call. destruct outcome; reflexivity. Qed.

Lemma calls_of_app st (r : result A) h evs :
  calls_of st (r, mkState h (trace st ++ evs)) = evs.
Proof. unfold calls_of; cbn. apply drop_app_length. Qed.

End Runs.

Section RunsOnDocuments.

Context {B : Type}.
Implicit Types (st : state) (lst : loc) (ds : list Document).

Lemma run_new_documents ds (k : loc -> M B) st :
  bind (new_documents ds) k st =
  k (alloc_documents (heap st) ds).1
    (mkState (alloc_documents (heap st) ds).2 (trace st)).
Proof. reflexivity. Qed.

Lemma run_read_documents lst ds (k : list Document -> M B) st :
  lookup_documents (heap st) lst = Some ds ->
  bind (read_documents lst) k st = k ds st.
Proof. intros H. unfold bind, read_documents. now rewrite H. Qed.

End RunsOnDocuments.

(** ** [replace_tab_with_space] *)

Section ReplaceTab.

Implicit Types (st : state) (lst l : loc) (ds : list Document).

(** One turn of the loop on a document. *)
Lemma loop_body_run l d st :
  heap st !! l = Some (ODocument d) ->
  (text <- get_page_content l ;;
   set_page_content l (PyStr.replace text [TAB] [SPACE])) st
  = (Ok tt, mkState (alter clean_object l (heap st)) (trace st)).
Proof.
  intros Hl. unfold bind, get_page_content, set_page_content.
  apply lookup_document_Some in Hl as Hd. rewrite Hd.
  cbn [heap trace]. rewrite Hd.
  f_equal. f_equal. now apply insert_clean_document.
Qed.

(** The loop body leaves every list as it is: the items the loop has read
    at its start are the items of the list throughout. *)
Lemma loop_body_keeps_lists l lst st :
  lookup_list
    (heap ((text <- get_page_content l ;;
            set_page_content l (PyStr.replace text [TAB] [SPACE])) st).2) lst
  = lookup_list (heap st) lst.
Proof.
  unfold bind, get_page_content, set_page_content.
  destruct (lookup_document (heap st) l) as [d|] eqn:Hd; [|reflexivity].
  cbn [heap trace]. rewrite Hd. cbn [snd heap].
  apply lookup_document_Some in Hd. unfold lookup_list.
  destruct (decide (l = lst)) as [->|Hne].
  - rewrite list_lookup_insert_eq by (eapply lookup_lt_Some; exact Hd).
    now rewrite Hd.
  - now rewrite list_lookup_insert_ne.
Qed.

(** The loop runs to its end on a list of documents. *)
Lemma loop_run items :
  forall h tr,
    Forall (fun l => exists d, h !! l = Some (ODocument d)) items ->
    for_each items
      (fun doc => text <- get_page_content doc ;;
                  set_page_content doc (PyStr.replace text [TAB] [SPACE]))
      (mkState h tr)
    = (Ok tt, mkState (clean_store h items) tr).
Proof.
  induction items as [|l items IH]; intros h tr Hall; [reflexivity|].
  apply Forall_cons in Hall as [[d Hd] Hall].
  cbn [for_each]. unfold bind at 1.
  rewrite (loop_body_run l d) by exact Hd. cbn [heap trace].
  rewrite IH; [reflexivity|].
  eapply Forall_impl; [exact Hall|]. intros x [dx Hx]. cbn in Hx.
  destruct (decide (l = x)) as [->|Hne].
  - exists (clean_document dx). now rewrite list_lookup_alter_eq, Hx.
  - exists dx. now rewrite list_lookup_alter_ne.
Qed.

Lemma replace_tab_with_space_run lst items ds st :
  heap st !! lst = Some (OList items) ->
  lookup_documents (heap st) lst = Some ds ->
  replace_tab_with_space lst st
  = (Ok lst, mkState (clean_store (heap st) items) (trace st)).
Proof.
  intros Hl Hds. unfold replace_tab_with_space.
  unfold bind at 1. unfold list_items.
  apply lookup_list_Some in Hl as Hl'. rewrite Hl'.
  unfold bind at 1. destruct st as [h tr]; cbn [heap trace] in *.
  rewrite loop_run; [reflexivity|].
  apply lookup_documents_Some in Hds as (items' & Hl'' & Hall).
  assert (items' = items) as -> by congruence.
  clear -Hall. induction Hall as [|l d items ds Hld _ IH]; constructor; eauto.
Qed.

(** A list that is not one, or an item without [page_content], raises. *)
Lemma replace_tab_with_space_not_a_list lst st :
  lookup_list (heap st) lst = None ->
  replace_tab_with_space lst st = (Raise TypeError, st).
Proof.
  intros H. unfold replace_tab_with_space, bind, list_items. now rewrite H.
Qed.

End ReplaceTab.

(** ** [convert_pdf_to_embeddings] *)

Section PipelineRuns.

Context `{Lib : Library}.
Implicit Types (st : state) (path : str) (chunk_size chunk_overlap : Z).

Lemma run_replace_tab_with_space {B} lst items ds (k : loc -> M B) st :
  heap st !! lst = Some (OList items) ->
  lookup_documents (heap st) lst = Some ds ->
  bind (replace_tab_with_space lst) k st
  = k lst (mkState (clean_store (heap st) items) (trace st)).
Proof.
  intros Hl Hds. unfold bind at 1.
  now rewrite (replace_tab_with_space_run lst items ds).
Qed.

Lemma texts_lookup_list st pages chunks :
  store_split st pages chunks !! texts_of st pages chunks
  = Some (OList (seq (length (store_loaded st pages)) (length chunks))).
Proof. apply alloc_documents_lookup_list. Qed.

Lemma texts_lookup_documents st pages chunks :
  lookup_documents (store_split st pages chunks) (texts_of st pages chunks)
  = Some chunks.
Proof. apply alloc_documents_lookup. Qed.

(** Once [replace_tab_with_space] has returned, [texts] is still the same
    list, and it holds the cleaned chunks. *)
Lemma texts_lookup_cleaned st pages chunks :
  lookup_documents (store_cleaned st pages chunks) (texts_of st pages chunks)
  = Some (clean_document <$> chunks).
Proof.
  apply clean_store_lookup_documents;
    [apply texts_lookup_list | apply texts_lookup_documents].
Qed.

(** Every run of the function, by the outcomes of the library calls. *)
Lemma convert_pdf_to_embeddings_run path chunk_size chunk_overlap st :
  convert_pdf_to_embeddings path chunk_size chunk_overlap st =
  match PyPDFLoader path with
  | Raise e => (Raise e, mkState (heap st) (trace st ++ [CallPyPDFLoader path]))
  | Ok loader =>
  match load loader with
  | Raise e =>
      (Raise e, mkState (heap st) (trace st ++ [CallPyPDFLoader path; CallLoad]))
  | Ok pages =>
  match RecursiveCharacterTextSplitter chunk_size chunk_overlap with
  | Raise e =>
      (Raise e,
       mkState (store_loaded st pages)
         (trace st ++
            [CallPyPDFLoader path; CallLoad;
             CallRecursiveCharacterTextSplitter chunk_size chunk_overlap]))
  | Ok text_splitter =>
  match split_documents text_splitter pages with
  | Raise e =>
      (Raise e,
       mkState (store_loaded st pages)
         (trace st ++
            [CallPyPDFLoader path; CallLoad;
             CallRecursiveCharacterTextSplitter chunk_size chunk_overlap;
             CallSplitDocuments (documents_of st pages) pages]))
  | Ok chunks =>
  match HuggingFaceEmbeddings model_name with
  | Raise e =>
      (Raise e,
       mkState (store_cleaned st pages chunks)
         (trace st ++
            [CallPyPDFLoader path; CallLoad;
             CallRecursiveCharacterTextSplitter chunk_size chunk_overlap;
             CallSplitDocuments (documents_of st pages) pages;
             CallHuggingFaceEmbeddings model_name]))
  | Ok embeddings =>
      (Chroma_from_documents (clean_document <$> chunks) embeddings,
       mkState (store_cleaned st pages chunks)
         (trace st ++
            [CallPyPDFLoader path; CallLoad;
             CallRecursiveCharacterTextSplitter chunk_size chunk_overlap;
             CallSplitDocuments (documents_of st pages) pages;
             CallHuggingFaceEmbeddings model_name;
             CallChromaFromDocuments (texts_of st pages chunks)
                                     (clean_document <$> chunks)]))
  end end end end end.
Proof.
  unfold convert_pdf_to_embeddings.
  rewrite run_call. destruct (PyPDFLoader path) as [loader|e]; [|reflexivity].
  unfold loader_load. rewrite bind_assoc, run_call. cbn [heap trace].
  destruct (load loader) as [pages|e]; [|now rewrite <- app_assoc].
  rewrite run_new_documents. cbn [heap trace].
  fold (documents_of st pages). fold (store_loaded st pages).
  rewrite run_call. cbn [heap trace].
  destruct (RecursiveCharacterTextSplitter chunk_size chunk_overlap)
    as [text_splitter|e]; [|now rewrite <- !app_assoc].
  unfold splitter_split_documents.
  rewrite bind_assoc, (run_read_documents _ pages)
    by apply alloc_documents_lookup.
  rewrite bind_assoc, run_call. cbn [heap trace].
  destruct (split_documents text_splitter pages) as [chunks|e];
    [|now rewrite <- !app_assoc].
  rewrite run_new_documents. cbn [heap trace].
  fold (texts_of st pages chunks). fold (store_split st pages chunks).
  rewrite (run_replace_tab_with_space _ _ chunks)
    by first [apply texts_lookup_list | apply texts_lookup_documents].
  cbn [heap trace]. fold (store_cleaned st pages chunks).
  rewrite run_call. cbn [heap trace].
  destruct (HuggingFaceEmbeddings model_name) as [embeddings|e];
    [|now rewrite <- !app_assoc].
  rewrite bind_ret_r. unfold chroma_from_documents.
  rewrite (run_read_documents _ (clean_document <$> chunks))
    by apply texts_lookup_cleaned.
  unfold call. cbn [heap trace]. now rewrite <- !app_assoc.
Qed.

End PipelineRuns.

(** ** The claims *)

(** C7: the normalisation [page_content.replace('\t', ' ')] is a total
    function on strings, the empty string included; its result has the
    length of its argument, holds a space wherever the argument holds a tab
    and the argument's character everywhere else, and holds no tab. *)
Theorem normalize_replaces_tabs_keeping_length (text : str) :
  normalize [] = [] /\
  length (normalize text) = length text /\
  (forall i : nat, normalize text !! i = tab_to_space <$> text !! i) /\
  tab_free (normalize text) = true.
Proof.
  split; [reflexivity|]. split; [apply normalize_length|].
  split; [intros i; apply normalize_lookup | apply normalize_tab_free].
Qed.

(** Cleaning keeps the length of every chunk: a bound on the chunks the
    splitter returns is a bound on the chunks that are stored. *)
Lemma cleaned_chunks_keep_their_length (chunks : list Document) :
  (fun d => length (page_content d)) <$> (clean_document <$> chunks)
  = (fun d => length (page_content d)) <$> chunks.
Proof.
  rewrite <- list_fmap_compose. apply list_fmap_ext.
  intros i d _. apply clean_document_length.
Qed.

Ltac no_such_call H :=
  repeat (apply elem_of_cons in H as [H|H]; [discriminate H|]);
  apply elem_of_nil in H; contradiction.

Section Claims.

Context `{Lib : Library}.

(** C5, as the code has it: a pair that the splitter's constructor
    rejects makes [convert_pdf_to_embeddings] raise the constructor's
    exception after the loader has been built and the document loaded
    into the store, and before anything is split, cleaned, embedded or
    stored. *)
Theorem configuration_error_raised_after_loading
    (path : str) (chunk_size chunk_overlap : Z) (st : state)
    (loader : Loader) (pages : list Document) (e : exn) :
  PyPDFLoader path = Ok loader ->
  load loader = Ok pages ->
  RecursiveCharacterTextSplitter chunk_size chunk_overlap = Raise e ->
  convert_pdf_to_embeddings path chunk_size chunk_overlap st
  = (Raise e,
     mkState (store_loaded st pages)
       (trace st ++
          [CallPyPDFLoader path; CallLoad;
           CallRecursiveCharacterTextSplitter chunk_size chunk_overlap])).
Proof.
  intros Hnew Hload Hcfg.
  now rewrite convert_pdf_to_embeddings_run, Hnew, Hload, Hcfg.
Qed.

(** When loading fails, the pair is not looked at: the loader's exception
    is the one raised. *)
Lemma load_error_precedes_configuration_check
    (path : str) (chunk_size chunk_overlap : Z) (st : state)
    (loader : Loader) (e : exn) :
  PyPDFLoader path = Ok loader ->
  load loader = Raise e ->
  convert_pdf_to_embeddings path chunk_size chunk_overlap st
  = (Raise e, mkState (heap st) (trace st ++ [CallPyPDFLoader path; CallLoad])).
Proof.
  intros Hnew Hload. now rewrite convert_pdf_to_embeddings_run, Hnew, Hload.
Qed.

(** No run of [convert_pdf_to_embeddings] rejects its arguments eagerly:
    the first thing any run does is to call the loader. *)
Lemma convert_pdf_to_embeddings_calls_loader_first
    (path : str) (chunk_size chunk_overlap : Z) (st : state) :
  exists evs,
    calls_of st (convert_pdf_to_embeddings path chunk_size chunk_overlap st)
    = CallPyPDFLoader path :: evs.
Proof.
  rewrite convert_pdf_to_embeddings_run.
  destruct (PyPDFLoader path) as [loader|e];
    [destruct (load loader) as [pages|e];
     [destruct (RecursiveCharacterTextSplitter chunk_size chunk_overlap) as [sp|e];
      [destruct (split_documents sp pages) as [chunks|e];
       [destruct (HuggingFaceEmbeddings model_name) as [emb|e]|]|]|]|];
    rewrite calls_of_app; eexists; reflexivity.
Qed.

(** C6, as the code has it: the splitter is handed the pages as they were
    loaded, tabs included; the chunks it returns are then cleaned in place;
    the embedding model is built only after that, so that a run in which
    its constructor raises leaves the chunks cleaned; and when the
    constructor returns, [Chroma.from_documents] is called with the cleaned
    chunks, which hold no tab. *)
Theorem convert_pdf_to_embeddings_chunks_then_normalizes
    (path : str) (chunk_size chunk_overlap : Z) (st : state)
    (loader : Loader) (pages : list Document) (text_splitter : Splitter)
    (chunks : list Document) :
  PyPDFLoader path = Ok loader ->
  load loader = Ok pages ->
  RecursiveCharacterTextSplitter chunk_size chunk_overlap = Ok text_splitter ->
  split_documents text_splitter pages = Ok chunks ->
  lookup_documents (store_split st pages chunks) (texts_of st pages chunks)
  = Some chunks /\
  lookup_documents (store_cleaned st pages chunks) (texts_of st pages chunks)
  = Some (clean_document <$> chunks) /\
  documents_tab_free (clean_document <$> chunks) = true /\
  convert_pdf_to_embeddings path chunk_size chunk_overlap st
  = match HuggingFaceEmbeddings model_name with
    | Raise e =>
        (Raise e,
         mkState (store_cleaned st pages chunks)
           (trace st ++
              [CallPyPDFLoader path; CallLoad;
               CallRecursiveCharacterTextSplitter chunk_size chunk_overlap;
               CallSplitDocuments (documents_of st pages) pages;
               CallHuggingFaceEmbeddings model_name]))
    | Ok embeddings =>
        (Chroma_from_documents (clean_document <$> chunks) embeddings,
         mkState (store_cleaned st pages chunks)
           (trace st ++
              [CallPyPDFLoader path; CallLoad;
               CallRecursiveCharacterTextSplitter chunk_size chunk_overlap;
               CallSplitDocuments (documents_of st pages) pages;
               CallHuggingFaceEmbeddings model_name;
               CallChromaFromDocuments (texts_of st pages chunks)
                                       (clean_document <$> chunks)]))
    end.
Proof.
  intros Hnew Hload Hcfg Hsplit.
  split; [apply texts_lookup_documents|].
  split; [apply texts_lookup_cleaned|].
  split; [apply clean_documents_tab_free|].
  now rewrite convert_pdf_to_embeddings_run, Hnew, Hload, Hcfg, Hsplit.
Qed.

(** What any run hands to the vector store: the list the splitter
    returned, holding the cleaned chunks. *)
Lemma chroma_call_inv
    (path : str) (chunk_size chunk_overlap : Z) (st : state)
    (texts : loc) (contents : list Document) :
  CallChromaFromDocuments texts contents
    ∈ calls_of st (convert_pdf_to_embeddings path chunk_size chunk_overlap st) ->
  exists pages chunks,
    texts = texts_of st pages chunks /\
    contents = clean_document <$> chunks /\
    heap (convert_pdf_to_embeddings path chunk_size chunk_overlap st).2
    = store_cleaned st pages chunks.
Proof.
  rewrite convert_pdf_to_embeddings_run.
  destruct (PyPDFLoader path) as [loader|e];
    [destruct (load loader) as [pages|e];
     [destruct (RecursiveCharacterTextSplitter chunk_size chunk_overlap) as [sp|e];
      [destruct (split_documents sp pages) as [chunks|e];
       [destruct (HuggingFaceEmbeddings model_name) as [emb|e]|]|]|]|];
    rewrite calls_of_app; intros H; try (now no_such_call H).
  repeat (apply elem_of_cons in H as [H|H]; [try discriminate H|]);
    [|apply elem_of_nil in H; contradiction].
  injection H as -> ->. exists pages, chunks. cbn. auto.
Qed.

End Claims.

(** C10: [replace_tab_with_space] returns the list it was given, which
    holds the same documents in the same order; each document has been
    cleaned where it is, and no other object has changed.  So in
    [convert_pdf_to_embeddings] the list [texts] that is handed to
    [Chroma.from_documents] is the list the splitter returned, it holds the
    cleaned chunks, and none of them has a tab. *)
Theorem replace_tab_with_space_cleans_in_place :
  (forall (st : state) (lst : loc) (items : list loc) (ds : list Document),
      lookup_list (heap st) lst = Some items ->
      lookup_documents (heap st) lst = Some ds ->
      exists h',
        replace_tab_with_space lst st = (Ok lst, mkState h' (trace st)) /\
        lookup_list h' lst = Some items /\
        lookup_documents h' lst = Some (clean_document <$> ds) /\
        length h' = length (heap st) /\
        (forall l : loc, l ∉ items -> h' !! l = heap st !! l)) /\
  (forall (Lib : Library) (path : str) (chunk_size chunk_overlap : Z)
          (st : state) (texts : loc) (contents : list Document),
      CallChromaFromDocuments texts contents
        ∈ calls_of st (convert_pdf_to_embeddings path chunk_size chunk_overlap st) ->
      documents_tab_free contents = true /\
      lookup_documents
        (heap (convert_pdf_to_embeddings path chunk_size chunk_overlap st).2) texts
      = Some contents /\
      exists pages chunks,
        texts = texts_of st pages chunks /\
        contents = clean_document <$> chunks).
Proof.
  split.
  - intros st lst items ds Hl Hds.
    apply lookup_list_Some in Hl.
    exists (clean_store (heap st) items).
    split; [now apply (replace_tab_with_space_run lst items ds)|].
    split; [apply lookup_list_Some; now apply clean_store_lookup_list|].
    split; [now apply clean_store_lookup_documents|].
    split; [apply clean_store_length|].
    intros l Hnin. rewrite clean_store_lookup.
    destruct (decide (l ∈ items)); [contradiction | reflexivity].
  - intros Lib path chunk_size chunk_overlap st texts contents Hcall.
    apply chroma_call_inv in Hcall as (pages & chunks & -> & -> & ->).
    split; [apply clean_documents_tab_free|].
    split; [apply texts_lookup_cleaned|].
    exists pages, chunks. auto.
Qed.

(** ** The claims on concrete runs *)

Lemma configuration_error_raised_after_loading_witness :
  @PyPDFLoader (Stub.library Stub.pages) path = Ok path /\
  @load (Stub.library Stub.pages) path = Ok Stub.pages /\
  @RecursiveCharacterTextSplitter (Stub.library Stub.pages) 5 10
  = Raise (Raised "ValueError") /\
  @convert_pdf_to_embeddings (Stub.library Stub.pages) path 5 10 Stub.empty_state
  = (Raise (Raised "ValueError"),
     mkState (store_loaded Stub.empty_state Stub.pages)
       (trace Stub.empty_state ++
          [CallPyPDFLoader path; CallLoad;
           CallRecursiveCharacterTextSplitter 5 10])).
Proof.
  split; [reflexivity|]. split; [reflexivity|]. split; [reflexivity|].
  apply (@configuration_error_raised_after_loading (Stub.library Stub.pages)
           path 5 10 Stub.empty_state path Stub.pages
           (Raised "ValueError")); reflexivity.
Defined.

(** C5 fails as stated: the pair (5, 10) is not a valid configuration and
    is rejected, but the run that raises has built the loader and loaded
    the document before. *)
Lemma eager_rejection_counterexample :
  Stub.valid_configuration 5 10 = false /\
  (@convert_pdf_to_embeddings (Stub.library Stub.pages)
     path 5 10 Stub.empty_state).1 = Raise (Raised "ValueError") /\
  calls_of Stub.empty_state
    (@convert_pdf_to_embeddings (Stub.library Stub.pages)
       path 5 10 Stub.empty_state)
  = [CallPyPDFLoader path; CallLoad; CallRecursiveCharacterTextSplitter 5 10] /\
  ~ rejected_eagerly Stub.empty_state
      (@convert_pdf_to_embeddings (Stub.library Stub.pages)
         path 5 10 Stub.empty_state).
Proof.
  split; [reflexivity|]. split; [reflexivity|]. split; [reflexivity|].
  intros [_ H]. vm_compute in H. discriminate H.
Qed.

Lemma convert_pdf_to_embeddings_chunks_then_normalizes_witness :
  @split_documents (Stub.library Stub.pages) (8, 2)%Z Stub.pages
  = Ok (flat_map (Stub.split_document (8, 2)%Z) Stub.pages) /\
  documents_tab_free (flat_map (Stub.split_document (8, 2)%Z) Stub.pages) = false /\
  (@convert_pdf_to_embeddings (Stub.library Stub.pages) path 8 2 Stub.empty_state
   = (Ok (clean_document <$> flat_map (Stub.split_document (8, 2)%Z) Stub.pages),
      mkState
        (store_cleaned Stub.empty_state Stub.pages
           (flat_map (Stub.split_document (8, 2)%Z) Stub.pages))
        (trace Stub.empty_state ++
           [CallPyPDFLoader path; CallLoad;
            CallRecursiveCharacterTextSplitter 8 2;
            CallSplitDocuments (documents_of Stub.empty_state Stub.pages) Stub.pages;
            CallHuggingFaceEmbeddings model_name;
            CallChromaFromDocuments
              (texts_of Stub.empty_state Stub.pages
                 (flat_map (Stub.split_document (8, 2)%Z) Stub.pages))
              (clean_document <$> flat_map (Stub.split_document (8, 2)%Z) Stub.pages)]))) /\
  (@convert_pdf_to_embeddings (offline_library Stub.pages) path 8 2 Stub.empty_state
   = (Raise (Raised "OSError"),
      mkState
        (store_cleaned Stub.empty_state Stub.pages
           (flat_map (Stub.split_document (8, 2)%Z) Stub.pages))
        (trace Stub.empty_state ++
           [CallPyPDFLoader path; CallLoad;
            CallRecursiveCharacterTextSplitter 8 2;
            CallSplitDocuments (documents_of Stub.empty_state Stub.pages) Stub.pages;
            CallHuggingFaceEmbeddings model_name]))) /\
  lookup_documents
    (store_cleaned Stub.empty_state Stub.pages
       (flat_map (Stub.split_document (8, 2)%Z) Stub.pages))
    (texts_of Stub.empty_state Stub.pages
       (flat_map (Stub.split_document (8, 2)%Z) Stub.pages))
  = Some (clean_document <$> flat_map (Stub.split_document (8, 2)%Z) Stub.pages).
Proof.
  split; [reflexivity|]. split; [reflexivity|].
  split; [|split].
  - apply (@convert_pdf_to_embeddings_chunks_then_normalizes
             (Stub.library Stub.pages) path 8 2 Stub.empty_state path Stub.pages
             (8, 2)%Z (flat_map (Stub.split_document (8, 2)%Z) Stub.pages));
      reflexivity.
  - apply (@convert_pdf_to_embeddings_chunks_then_normalizes
             (offline_library Stub.pages) path 8 2 Stub.empty_state path Stub.pages
             (8, 2)%Z (flat_map (Stub.split_document (8, 2)%Z) Stub.pages));
      reflexivity.
  - apply (@convert_pdf_to_embeddings_chunks_then_normalizes
             (offline_library Stub.pages) path 8 2 Stub.empty_state path Stub.pages
             (8, 2)%Z (flat_map (Stub.split_document (8, 2)%Z) Stub.pages));
      reflexivity.
Defined.

(** C6 fails as stated: with the notebook's own arguments, 500 and 50, the
    splitter is handed a page that still has its tabs, and the run goes on
    to build the vector store. *)
Lemma chunks_from_normalized_text_counterexample :
  documents_tab_free Stub.pages = false /\
  splitter_input_tab_free
    (calls_of Stub.empty_state
       (@chunks_vector_store (Stub.library Stub.pages) Stub.empty_state)) = false /\
  (@chunks_vector_store (Stub.library Stub.pages) Stub.empty_state).1
  = Ok (clean_document <$> Stub.pages).
Proof. split; [reflexivity|]. split; vm_compute; reflexivity. Qed.

Lemma replace_tab_with_space_cleans_in_place_witness :
  (exists h',
      replace_tab_with_space 1%nat shared_state = (Ok 1%nat, mkState h' []) /\
      lookup_list h' 1%nat = Some [0%nat; 0%nat] /\
      lookup_documents h' 1%nat
      = Some (clean_document <$> [Stub.page0; Stub.page0]) /\
      length h' = 2%nat /\
      (forall l : loc, l ∉ [0%nat; 0%nat] -> h' !! l = heap shared_state !! l)) /\
  documents_tab_free
    (clean_document <$> flat_map (Stub.split_document (8, 2)%Z) Stub.pages) = true.
Proof.
  split.
  - apply (proj1 replace_tab_with_space_cleans_in_place
             shared_state 1%nat [0%nat; 0%nat] [Stub.page0; Stub.page0]);
      reflexivity.
  - apply (proj2 replace_tab_with_space_cleans_in_place
             (Stub.library Stub.pages) path 8%Z 2%Z Stub.empty_state 8%nat
             (clean_document <$> flat_map (Stub.split_document (8, 2)%Z) Stub.pages)).
    vm_compute. repeat constructor.
Defined.

Example shared_document_cleaned_once :
  (replace_tab_with_space 1%nat shared_state).2
  = mkState [ODocument (clean_document Stub.page0); OList [0%nat; 0%nat]] [].
Proof. vm_compute; reflexivity. Qed.

Example not_a_document_raises :
  replace_tab_with_space 0%nat (mkState [OList [0%nat]] [])
  = (Raise AttributeError, mkState [OList [0%nat]] []).
Proof. reflexivity. Qed.

(** ** More on the normaliser and on [replace_tab_with_space] *)

Section CleaningAgain.

Implicit Types (h : store) (st : state) (l lst : loc) (d : Document)
               (ds : list Document) (items : list loc).

Lemma clean_document_fixed d :
  clean_document d = d <-> tab_free (page_content d) = true.
Proof.
  split.
  - intros Heq. rewrite <- Heq. apply clean_document_tab_free.
  - intros Hfree. destruct d as [text meta]. unfold clean_document; cbn in *.
    now rewrite normalize_id_of_tab_free.
Qed.

Lemma state_eta st : mkState (heap st) (trace st) = st.
Proof. now destruct st. Qed.

(** Visiting the same items a second time changes nothing. *)
Lemma clean_store_twice h items :
  clean_store (clean_store h items) items = clean_store h items.
Proof.
  apply list_eq. intros l. rewrite !clean_store_lookup.
  destruct (decide (l ∈ items)); [|reflexivity].
  destruct (h !! l) as [o|]; cbn; [now rewrite clean_object_idem | reflexivity].
Qed.

(** The loop leaves the store as it is exactly when no document it visits
    has a tab. *)
Lemma clean_store_fixed h items ds :
  Forall2 (fun l d => h !! l = Some (ODocument d)) items ds ->
  clean_store h items = h <-> documents_tab_free ds = true.
Proof.
  intros Hall. unfold documents_tab_free. rewrite forallb_forall. split.
  - intros Heq d Hin. apply list_elem_of_In in Hin.
    apply list_elem_of_lookup in Hin as [i Hi].
    destruct (Forall2_lookup_r _ _ _ _ _ Hall Hi) as (l & Hl & Hd).
    assert (clean_store h items !! l = Some (ODocument (clean_document d))) as Hc.
    { apply clean_store_lookup_document; [|exact Hd].
      eapply list_elem_of_lookup_2; exact Hl. }
    rewrite Heq, Hd in Hc. apply clean_document_fixed. congruence.
  - intros Hfree. apply list_eq. intros l. rewrite clean_store_lookup.
    destruct (decide (l ∈ items)) as [Hin|]; [|reflexivity].
    apply list_elem_of_lookup in Hin as [i Hi].
    destruct (Forall2_lookup_l _ _ _ _ _ Hall Hi) as (d & Hd & Hl).
    rewrite Hl. cbn. do 2 f_equal. apply clean_document_fixed, Hfree.
    apply list_elem_of_In. eapply list_elem_of_lookup_2; exact Hd.
Qed.

(** A location that holds no document before the loop holds none after. *)
Lemma clean_store_lookup_document_None h items l :
  lookup_document h l = None -> lookup_document (clean_store h items) l = None.
Proof.
  unfold lookup_document. rewrite clean_store_lookup.
  destruct (decide (l ∈ items)); [|easy].
  destruct (h !! l) as [[d|its]|]; cbn; easy.
Qed.

(** The loop stops at the first item that is no document; the documents
    before it have been cleaned by then. *)
Lemma loop_stops_at_bad_item pre bad post :
  forall h tr,
    Forall (fun l => exists d, h !! l = Some (ODocument d)) pre ->
    lookup_document h bad = None ->
    for_each (pre ++ bad :: post)
      (fun doc => text <- get_page_content doc ;;
                  set_page_content doc (PyStr.replace text [TAB] [SPACE]))
      (mkState h tr)
    = (Raise AttributeError, mkState (clean_store h pre) tr).
Proof.
  induction pre as [|l pre IH]; intros h tr Hall Hbad.
  - cbn [app for_each clean_store foldl]. unfold bind, get_page_content.
    cbn [heap]. now rewrite Hbad.
  - apply Forall_cons in Hall as [[d Hd] Hall].
    cbn [app for_each]. unfold bind at 1.
    rewrite (loop_body_run l d) by exact Hd. cbn [heap trace].
    rewrite clean_store_cons. apply IH.
    + eapply Forall_impl; [exact Hall|]. intros x [dx Hx]. cbn in Hx.
      destruct (decide (l = x)) as [->|Hne].
      * exists (clean_document dx). now rewrite list_lookup_alter_eq, Hx.
      * exists dx. now rewrite list_lookup_alter_ne.
    + unfold lookup_document in *.
      destruct (decide (l = bad)) as [->|Hne].
      * rewrite list_lookup_alter_eq. now rewrite Hd in Hbad.
      * now rewrite list_lookup_alter_ne.
Qed.

End CleaningAgain.

(** X1: [replace_tab_with_space] is idempotent: on a list of documents a
    second call returns the same list and leaves the store of the first
    call as it is. *)
Theorem replace_tab_with_space_idempotent
    (st : state) (lst : loc) (ds : list Document) :
  lookup_documents (heap st) lst = Some ds ->
  exists st',
    replace_tab_with_space lst st = (Ok lst, st') /\
    replace_tab_with_space lst st' = (Ok lst, st').
Proof.
  intros Hds. pose proof Hds as Hds'.
  apply lookup_documents_Some in Hds' as (items & Hl & _).
  exists (mkState (clean_store (heap st) items) (trace st)).
  split; [now apply (replace_tab_with_space_run lst items ds)|].
  rewrite (replace_tab_with_space_run lst items (clean_document <$> ds)).
  - cbn [heap trace]. now rewrite clean_store_twice.
  - now apply clean_store_lookup_list.
  - now apply clean_store_lookup_documents.
Qed.

Lemma replace_tab_with_space_idempotent_witness :
  lookup_documents (heap shared_state) 1%nat = Some [Stub.page0; Stub.page0] /\
  exists st',
    replace_tab_with_space 1%nat shared_state = (Ok 1%nat, st') /\
    replace_tab_with_space 1%nat st' = (Ok 1%nat, st').
Proof.
  split; [reflexivity|].
  apply (replace_tab_with_space_idempotent shared_state 1%nat
           [Stub.page0; Stub.page0]).
  reflexivity.
Defined.

(** X2: on a list of documents, [replace_tab_with_space] leaves the whole
    state as it was exactly when none of the documents has a tab. *)
Theorem replace_tab_with_space_unchanged_iff_tab_free
    (st : state) (lst : loc) (ds : list Document) :
  lookup_documents (heap st) lst = Some ds ->
  replace_tab_with_space lst st = (Ok lst, st) <-> documents_tab_free ds = true.
Proof.
  intros Hds. pose proof Hds as Hds'.
  apply lookup_documents_Some in Hds' as (items & Hl & Hall).
  rewrite (replace_tab_with_space_run lst items ds) by assumption.
  rewrite <- (clean_store_fixed (heap st) items ds Hall). split.
  - intros Heq. injection Heq as Heq.
    now rewrite <- Heq at 2.
  - intros Heq. rewrite Heq. now rewrite state_eta.
Qed.

Lemma replace_tab_with_space_unchanged_iff_tab_free_witness :
  lookup_documents [ODocument Stub.page1; OList [0%nat]] 1%nat
  = Some [Stub.page1] /\
  (replace_tab_with_space 1%nat (mkState [ODocument Stub.page1; OList [0%nat]] [])
   = (Ok 1%nat, mkState [ODocument Stub.page1; OList [0%nat]] [])
   <-> documents_tab_free [Stub.page1] = true).
Proof.
  split; [reflexivity|].
  apply (replace_tab_with_space_unchanged_iff_tab_free
           (mkState [ODocument Stub.page1; OList [0%nat]] []) 1%nat [Stub.page1]).
  reflexivity.
Defined.

(** X3: the loop is not undone when it fails.  When the list holds an item
    that is no document, [replace_tab_with_space] raises [AttributeError] at
    the first such item; the documents in front of it have been cleaned in
    place by then, and every object that is not in front of it is as it
    was. *)
Theorem replace_tab_with_space_stops_at_bad_item
    (st : state) (lst bad : loc) (pre post : list loc) :
  lookup_list (heap st) lst = Some (pre ++ bad :: post) ->
  Forall (fun l => is_Some (lookup_document (heap st) l)) pre ->
  lookup_document (heap st) bad = None ->
  replace_tab_with_space lst st
  = (Raise AttributeError, mkState (clean_store (heap st) pre) (trace st)) /\
  (forall l d, l ∈ pre -> lookup_document (heap st) l = Some d ->
               lookup_document (clean_store (heap st) pre) l
               = Some (clean_document d)) /\
  (forall l, l ∉ pre -> clean_store (heap st) pre !! l = heap st !! l).
Proof.
  intros Hl Hpre Hbad. split; [|split].
  - unfold replace_tab_with_space. unfold bind at 1. unfold list_items.
    rewrite Hl. unfold bind at 1.
    destruct st as [h tr]; cbn [heap trace] in *.
    rewrite loop_stops_at_bad_item; [reflexivity| |exact Hbad].
    eapply Forall_impl; [exact Hpre|]. intros l [d Hd].
    exists d. now apply lookup_document_Some.
  - intros l d Hin Hd. apply lookup_document_Some.
    apply clean_store_lookup_document; [exact Hin|].
    now apply lookup_document_Some.
  - intros l Hnin. rewrite clean_store_lookup.
    destruct (decide (l ∈ pre)); [contradiction | reflexivity].
Qed.

Lemma replace_tab_with_space_stops_at_bad_item_witness :
  replace_tab_with_space 1%nat mixed_state
  = (Raise AttributeError,
     mkState (clean_store (heap mixed_state) [0%nat]) (trace mixed_state)) /\
  clean_store (heap mixed_state) [0%nat]
  = [ODocument (clean_document Stub.page0); OList [0%nat; 1%nat; 2%nat];
     ODocument Stub.page0].
Proof.
  split; [|vm_compute; reflexivity].
  apply (replace_tab_with_space_stops_at_bad_item
           mixed_state 1%nat 1%nat [0%nat] [2%nat]).
  - reflexivity.
  - repeat constructor. exists Stub.page0. reflexivity.
  - reflexivity.
Defined.

(** X4: cleaning is seen through every reference.  After
    [replace_tab_with_space] has run on one list, any other list of
    documents reads each of its documents cleaned if the document is also
    an item of the first list, and as it was if it is not. *)
Theorem replace_tab_with_space_seen_through_aliases
    (st : state) (lst lst2 : loc) (items items2 : list loc)
    (ds ds2 : list Document) :
  lookup_list (heap st) lst = Some items ->
  lookup_documents (heap st) lst = Some ds ->
  lookup_list (heap st) lst2 = Some items2 ->
  lookup_documents (heap st) lst2 = Some ds2 ->
  lookup_documents (heap (replace_tab_with_space lst st).2) lst2
  = Some (zip_with (seen_after_cleaning items) items2 ds2).
Proof.
  intros Hl Hds Hl2 Hds2.
  apply lookup_list_Some in Hl, Hl2.
  rewrite (replace_tab_with_space_run lst items ds) by assumption.
  cbn [snd heap].
  apply lookup_documents_Some in Hds2 as (items2' & Hl2' & Hall).
  assert (items2' = items2) as -> by congruence.
  apply lookup_documents_Some. exists items2.
  split; [now apply clean_store_lookup_list|].
  apply Forall2_same_length_lookup. split.
  - rewrite length_zip_with.
    apply Forall2_length in Hall. lia.
  - intros i l d' Hi Hd'.
    apply lookup_zip_with_Some in Hd' as (l' & d & -> & Hi' & Hd).
    assert (l' = l) as -> by congruence.
    pose proof (Forall2_lookup_lr (fun l d => heap st !! l = Some (ODocument d))
                  _ _ _ _ _ Hall Hi Hd) as Hld.
    rewrite clean_store_lookup, Hld. unfold seen_after_cleaning.
    destruct (decide (l ∈ items)) as [Hin|Hnin].
    + now rewrite bool_decide_eq_true_2.
    + now rewrite bool_decide_eq_false_2.
Qed.

Lemma replace_tab_with_space_seen_through_aliases_witness :
  lookup_documents (heap (replace_tab_with_space 2%nat aliased_state).2) 3%nat
  = Some [clean_document Stub.page0; Stub.page0].
Proof.
  apply (replace_tab_with_space_seen_through_aliases aliased_state 2%nat 3%nat
           [0%nat] [0%nat; 1%nat] [Stub.page0] [Stub.page0; Stub.page0]);
    reflexivity.
Defined.

(** X5: replacing tabs goes through cutting and joining: the cleaned text
    of a concatenation is the concatenation of the cleaned texts, and a
    prefix or a suffix of a text, cleaned, is the same prefix or suffix of
    the cleaned text.  Cleaning the chunks that a splitter cuts out of a
    page gives the pieces of the cleaned page at the same positions. *)
Theorem normalize_commutes_with_slicing (s t : str) (n : nat) :
  normalize (s ++ t) = normalize s ++ normalize t /\
  normalize (take n s) = take n (normalize s) /\
  normalize (drop n s) = drop n (normalize s).
Proof.
  rewrite !normalize_map. split; [apply map_app|].
  split; [apply fmap_take | apply fmap_drop].
Qed.

(** ** More on [convert_pdf_to_embeddings] *)

Section PipelineFrame.

Implicit Types (h : store) (st : state) (l lst : loc) (ds pages chunks : list Document).

Lemma fmap_clean_document_fixed ds :
  documents_tab_free ds = true -> clean_document <$> ds = ds.
Proof.
  unfold documents_tab_free. induction ds as [|d ds IH]; [reflexivity|].
  cbn. intros [Hd Hds]%andb_true_iff.
  rewrite IH by exact Hds. f_equal. now apply clean_document_fixed.
Qed.

(** A list of documents reads the same in every store that agrees with the
    first on the locations the first has in use. *)
Lemma lookup_documents_agree h h' lst ds :
  (forall l, (l < length h)%nat -> h' !! l = h !! l) ->
  lookup_documents h lst = Some ds -> lookup_documents h' lst = Some ds.
Proof.
  intros Hagree Hds.
  apply lookup_documents_Some in Hds as (items & Hl & Hall).
  apply lookup_documents_Some. exists items. split.
  - rewrite Hagree; [exact Hl|]. eapply lookup_lt_Some; exact Hl.
  - eapply Forall2_impl; [exact Hall|]. intros l d Hld. cbn in *.
    rewrite Hagree; [exact Hld|]. eapply lookup_lt_Some; exact Hld.
Qed.

Lemma store_loaded_length st pages :
  length (store_loaded st pages) = (length (heap st) + length pages + 1)%nat.
Proof.
  unfold store_loaded, alloc_documents; cbn [snd].
  rewrite !length_app, length_fmap. cbn. lia.
Qed.

Lemma store_loaded_old st pages l :
  (l < length (heap st))%nat -> store_loaded st pages !! l = heap st !! l.
Proof. apply alloc_documents_old. Qed.

Lemma store_split_old st pages chunks l :
  (l < length (store_loaded st pages))%nat ->
  store_split st pages chunks !! l = store_loaded st pages !! l.
Proof. apply alloc_documents_old. Qed.

(** Cleaning the chunks writes to the chunks only. *)
Lemma store_cleaned_old st pages chunks l :
  (l < length (store_loaded st pages))%nat ->
  store_cleaned st pages chunks !! l = store_loaded st pages !! l.
Proof.
  intros Hlt. unfold store_cleaned. rewrite clean_store_lookup.
  destruct (decide (l ∈ seq (length (store_loaded st pages)) (length chunks)))
    as [Hin|_].
  - apply elem_of_seq in Hin. lia.
  - now apply store_split_old.
Qed.

Lemma store_cleaned_length st pages chunks :
  length (store_cleaned st pages chunks)
  = (length (store_loaded st pages) + length chunks + 1)%nat.
Proof.
  unfold store_cleaned. rewrite clean_store_length.
  unfold store_split, alloc_documents; cbn [snd].
  rewrite !length_app, length_fmap. cbn. lia.
Qed.

Lemma documents_lookup_loaded st pages :
  lookup_documents (store_loaded st pages) (documents_of st pages) = Some pages.
Proof. apply alloc_documents_lookup. Qed.

(** When no chunk has a tab, cleaning leaves the store as the splitter's
    call left it. *)
Lemma store_cleaned_tab_free st pages chunks :
  documents_tab_free chunks = true ->
  store_cleaned st pages chunks = store_split st pages chunks.
Proof.
  intros Hfree. unfold store_cleaned.
  pose proof (alloc_documents_lookup (store_loaded st pages) chunks) as Hds.
  apply lookup_documents_Some in Hds as (items & Hl & Hall).
  pose proof (alloc_documents_lookup_list (store_loaded st pages) chunks) as Hl'.
  assert (items = seq (length (store_loaded st pages)) (length chunks)) as ->
    by congruence.
  now apply (clean_store_fixed _ _ chunks Hall).
Qed.

End PipelineFrame.

Ltac run_cases path chunk_size chunk_overlap :=
  rewrite convert_pdf_to_embeddings_run;
  destruct (PyPDFLoader path) as [loader|e];
    [destruct (load loader) as [pages|e];
     [destruct (RecursiveCharacterTextSplitter chunk_size chunk_overlap) as [sp|e];
      [destruct (split_documents sp pages) as [chunks|e];
       [destruct (HuggingFaceEmbeddings model_name) as [emb|e]|]|]|]|].

Section PipelineMore.

Context `{Lib : Library}.
Implicit Types (st : state) (path : str) (chunk_size chunk_overlap : Z).

(** X6: every run of [convert_pdf_to_embeddings] makes its library calls
    in one order, with no gap and no repetition: loader, load, splitter,
    split, embedding model, vector store.  It always calls the loader and
    it stops at the first call that raises: a run that has made fewer than
    six calls has raised, the exception of a run that raises is the one its
    last call raised, and every call before the last has returned.  A run
    that returns has made all six calls, and the calls recorded before the
    run are kept. *)
Theorem convert_pdf_to_embeddings_call_order path chunk_size chunk_overlap st :
  exists n : nat,
    (1 <= n <= 6)%nat /\
    call_rank <$> calls_of st (convert_pdf_to_embeddings path chunk_size chunk_overlap st)
    = seq 0 n /\
    trace (convert_pdf_to_embeddings path chunk_size chunk_overlap st).2
    = trace st ++ calls_of st (convert_pdf_to_embeddings path chunk_size chunk_overlap st) /\
    (forall vs, (convert_pdf_to_embeddings path chunk_size chunk_overlap st).1 = Ok vs ->
                n = 6%nat) /\
    ((n < 6)%nat ->
     exists e, (convert_pdf_to_embeddings path chunk_size chunk_overlap st).1 = Raise e) /\
    (forall e, (convert_pdf_to_embeddings path chunk_size chunk_overlap st).1 = Raise e ->
               raised_by path chunk_size chunk_overlap (n - 1) e).
Proof.
  rewrite convert_pdf_to_embeddings_run.
  destruct (PyPDFLoader path) as [loader|e] eqn:Hnew;
    [destruct (load loader) as [pages|e] eqn:Hload;
     [destruct (RecursiveCharacterTextSplitter chunk_size chunk_overlap)
        as [sp|e] eqn:Hcfg;
      [destruct (split_documents sp pages) as [chunks|e] eqn:Hsplit;
       [destruct (HuggingFaceEmbeddings model_name) as [emb|e] eqn:Hemb|]|]|]|];
    rewrite calls_of_app; cbn [fst snd trace].
  all: [> exists 6%nat | exists 5%nat | exists 4%nat | exists 3%nat
          | exists 2%nat | exists 1%nat ].
  all: split; [lia|].
  all: split; [reflexivity|].
  all: split; [reflexivity|].
  all: split; [intros vs Hvs; first [reflexivity | discriminate Hvs]|].
  all: split; [intros Hlt; first [lia | eexists; reflexivity]|].
  all: intros e' He'; cbn [Nat.sub raised_by];
    try (injection He' as <-); eauto 12.
Qed.

(** X7: the value or the exception of one run is that of its library
    calls taken in order, with every chunk cleaned between the split and
    the vector store: the exception of the first call that raises, or else
    what [Chroma.from_documents] returns for the cleaned chunks.  It is the
    same whatever documents and lists the store holds when the run starts,
    and the notebook's own loop raises nothing in the pipeline. *)
Theorem convert_pdf_to_embeddings_outcome path chunk_size chunk_overlap st :
  (convert_pdf_to_embeddings path chunk_size chunk_overlap st).1
  = pipeline_outcome path chunk_size chunk_overlap.
Proof.
  rewrite convert_pdf_to_embeddings_run. unfold pipeline_outcome.
  destruct (PyPDFLoader path) as [loader|e]; cbn [and_then]; [|reflexivity].
  destruct (load loader) as [pages|e]; cbn [and_then]; [|reflexivity].
  destruct (RecursiveCharacterTextSplitter chunk_size chunk_overlap) as [sp|e];
    cbn [and_then]; [|reflexivity].
  destruct (split_documents sp pages) as [chunks|e]; cbn [and_then]; [|reflexivity].
  destruct (HuggingFaceEmbeddings model_name) as [emb|e]; reflexivity.
Qed.

(** X8: a run does not write to any document or list of documents that
    was there before it: the store of documents and lists only grows, and
    every location in use before the run holds the same object after it,
    whether the run returns or raises.  The loop of
    [replace_tab_with_space] writes to the chunks of this run only. *)
Theorem convert_pdf_to_embeddings_keeps_old_objects
    path chunk_size chunk_overlap st (l : loc) :
  (length (heap st)
   <= length (heap (convert_pdf_to_embeddings path chunk_size chunk_overlap st).2))%nat /\
  ((l < length (heap st))%nat ->
   heap (convert_pdf_to_embeddings path chunk_size chunk_overlap st).2 !! l
   = heap st !! l).
Proof.
  run_cases path chunk_size chunk_overlap; cbn [snd heap];
    try (split; [lia | reflexivity]).
  - split.
    + rewrite store_cleaned_length, store_loaded_length. lia.
    + intros Hlt. rewrite store_cleaned_old, store_loaded_old;
        [reflexivity | exact Hlt | rewrite store_loaded_length; lia].
  - split.
    + rewrite store_cleaned_length, store_loaded_length. lia.
    + intros Hlt. rewrite store_cleaned_old, store_loaded_old;
        [reflexivity | exact Hlt | rewrite store_loaded_length; lia].
  - split; [rewrite store_loaded_length; lia | apply store_loaded_old].
  - split; [rewrite store_loaded_length; lia | apply store_loaded_old].
Qed.

(** X9: the pages are not cleaned.  Once the document is loaded, the list
    [documents] holds the pages as the loader returned them, tabs included,
    at the end of the run, whether the run returns or raises: tabs are
    replaced in the chunks only. *)
Theorem convert_pdf_to_embeddings_keeps_pages
    path chunk_size chunk_overlap st (loader : Loader) (pages : list Document) :
  PyPDFLoader path = Ok loader ->
  load loader = Ok pages ->
  lookup_documents
    (heap (convert_pdf_to_embeddings path chunk_size chunk_overlap st).2)
    (documents_of st pages)
  = Some pages.
Proof.
  intros Hnew Hload.
  rewrite convert_pdf_to_embeddings_run, Hnew, Hload.
  destruct (RecursiveCharacterTextSplitter chunk_size chunk_overlap) as [sp|e];
    [destruct (split_documents sp pages) as [chunks|e];
     [destruct (HuggingFaceEmbeddings model_name) as [emb|e]|]|];
    cbn [snd heap]; try apply documents_lookup_loaded;
    (eapply lookup_documents_agree; [|apply documents_lookup_loaded]);
    intros l Hlt; now apply store_cleaned_old.
Qed.

(** X10: what the vector store is built from, in any run that gets there:
    the chunks the splitter returned for the loaded pages, in the same
    number and order, each with its metadata and with a text of the same
    length. *)
Theorem convert_pdf_to_embeddings_stores_the_chunks
    path chunk_size chunk_overlap st (texts : loc) (contents : list Document) :
  CallChromaFromDocuments texts contents
    ∈ calls_of st (convert_pdf_to_embeddings path chunk_size chunk_overlap st) ->
  exists loader pages text_splitter chunks,
    PyPDFLoader path = Ok loader /\
    load loader = Ok pages /\
    RecursiveCharacterTextSplitter chunk_size chunk_overlap = Ok text_splitter /\
    split_documents text_splitter pages = Ok chunks /\
    length contents = length chunks /\
    metadata <$> contents = metadata <$> chunks /\
    (fun d => length (page_content d)) <$> contents
    = (fun d => length (page_content d)) <$> chunks.
Proof.
  rewrite convert_pdf_to_embeddings_run.
  destruct (PyPDFLoader path) as [loader|e] eqn:Hnew;
    [destruct (load loader) as [pages|e] eqn:Hload;
     [destruct (RecursiveCharacterTextSplitter chunk_size chunk_overlap)
        as [sp|e] eqn:Hcfg;
      [destruct (split_documents sp pages) as [chunks|e] eqn:Hsplit;
       [destruct (HuggingFaceEmbeddings model_name) as [emb|e]|]|]|]|];
    rewrite calls_of_app; intros Hcall; try (now no_such_call Hcall).
  repeat (apply elem_of_cons in Hcall as [Hcall|Hcall]; [try discriminate Hcall|]);
    [|apply elem_of_nil in Hcall; contradiction].
  injection Hcall as -> ->.
  exists loader, pages, sp, chunks. repeat split; try assumption.
  - apply length_fmap.
  - rewrite <- list_fmap_compose. reflexivity.
  - apply cleaned_chunks_keep_their_length.
Qed.

(** X11: when the splitter returns chunks without tabs, the cleaning step
    changes nothing: the vector store is built from the chunks as the
    splitter returned them, and the store is as the splitter's call left
    it. *)
Theorem convert_pdf_to_embeddings_tab_free_chunks
    path chunk_size chunk_overlap st
    (loader : Loader) (pages : list Document) (text_splitter : Splitter)
    (chunks : list Document) (embeddings : Embeddings) :
  PyPDFLoader path = Ok loader ->
  load loader = Ok pages ->
  RecursiveCharacterTextSplitter chunk_size chunk_overlap = Ok text_splitter ->
  split_documents text_splitter pages = Ok chunks ->
  HuggingFaceEmbeddings model_name = Ok embeddings ->
  documents_tab_free chunks = true ->
  convert_pdf_to_embeddings path chunk_size chunk_overlap st
  = (Chroma_from_documents chunks embeddings,
     mkState (store_split st pages chunks)
       (trace st ++
          [CallPyPDFLoader path; CallLoad;
           CallRecursiveCharacterTextSplitter chunk_size chunk_overlap;
           CallSplitDocuments (documents_of st pages) pages;
           CallHuggingFaceEmbeddings model_name;
           CallChromaFromDocuments (texts_of st pages chunks) chunks])).
Proof.
  intros Hnew Hload Hcfg Hsplit Hemb Hfree.
  rewrite convert_pdf_to_embeddings_run, Hnew, Hload, Hcfg, Hsplit, Hemb.
  now rewrite store_cleaned_tab_free, fmap_clean_document_fixed.
Qed.

End PipelineMore.

Lemma convert_pdf_to_embeddings_call_order_witness :
  exists n : nat,
    (1 <= n <= 6)%nat /\
    call_rank <$> calls_of Stub.empty_state
      (@convert_pdf_to_embeddings (Stub.library Stub.pages) path 5 10 Stub.empty_state)
    = seq 0 n /\
    trace (@convert_pdf_to_embeddings (Stub.library Stub.pages)
             path 5 10 Stub.empty_state).2
    = trace Stub.empty_state ++
      calls_of Stub.empty_state
        (@convert_pdf_to_embeddings (Stub.library Stub.pages) path 5 10 Stub.empty_state) /\
    (forall vs,
        (@convert_pdf_to_embeddings (Stub.library Stub.pages)
           path 5 10 Stub.empty_state).1 = Ok vs -> n = 6%nat) /\
    ((n < 6)%nat ->
     exists e,
       (@convert_pdf_to_embeddings (Stub.library Stub.pages)
          path 5 10 Stub.empty_state).1 = Raise e) /\
    (forall e,
        (@convert_pdf_to_embeddings (Stub.library Stub.pages)
           path 5 10 Stub.empty_state).1 = Raise e ->
        @raised_by (Stub.library Stub.pages) path 5 10 (n - 1) e).
Proof.
  apply (@convert_pdf_to_embeddings_call_order (Stub.library Stub.pages)
           path 5 10 Stub.empty_state).
Defined.

Lemma convert_pdf_to_embeddings_keeps_old_objects_witness :
  (length (heap shared_state)
   <= length (heap (@convert_pdf_to_embeddings (Stub.library Stub.pages)
                      path 8 2 shared_state).2))%nat /\
  heap (@convert_pdf_to_embeddings (Stub.library Stub.pages) path 8 2 shared_state).2
    !! 0%nat
  = Some (ODocument Stub.page0).
Proof.
  destruct (@convert_pdf_to_embeddings_keeps_old_objects (Stub.library Stub.pages)
              path 8 2 shared_state 0%nat) as [Hlen Hold].
  split; [exact Hlen|].
  rewrite Hold; [reflexivity | cbn; lia].
Defined.

Lemma convert_pdf_to_embeddings_keeps_pages_witness :
  documents_tab_free Stub.pages = false /\
  lookup_documents
    (heap (@convert_pdf_to_embeddings (Stub.library Stub.pages)
             path 8 2 Stub.empty_state).2)
    (documents_of Stub.empty_state Stub.pages)
  = Some Stub.pages.
Proof.
  split; [reflexivity|].
  apply (@convert_pdf_to_embeddings_keeps_pages (Stub.library Stub.pages)
           path 8 2 Stub.empty_state path Stub.pages); reflexivity.
Defined.

Lemma convert_pdf_to_embeddings_stores_the_chunks_witness :
  exists (loader : @Loader (Stub.library Stub.pages)) pages
         (text_splitter : @Splitter (Stub.library Stub.pages)) chunks,
    @PyPDFLoader (Stub.library Stub.pages) path = Ok loader /\
    @load (Stub.library Stub.pages) loader = Ok pages /\
    @RecursiveCharacterTextSplitter (Stub.library Stub.pages) 8 2 = Ok text_splitter /\
    @split_documents (Stub.library Stub.pages) text_splitter pages = Ok chunks /\
    length (clean_document <$> flat_map (Stub.split_document (8, 2)%Z) Stub.pages)
    = length chunks /\
    metadata <$> (clean_document <$> flat_map (Stub.split_document (8, 2)%Z) Stub.pages)
    = metadata <$> chunks /\
    (fun d => length (page_content d))
      <$> (clean_document <$> flat_map (Stub.split_document (8, 2)%Z) Stub.pages)
    = (fun d => length (page_content d)) <$> chunks.
Proof.
  apply (@convert_pdf_to_embeddings_stores_the_chunks (Stub.library Stub.pages)
           path 8 2 Stub.empty_state 8%nat).
  vm_compute. repeat constructor.
Defined.

Lemma convert_pdf_to_embeddings_tab_free_chunks_witness :
  documents_tab_free [Stub.page1] = true /\
  @chunks_vector_store (Stub.library [Stub.page1]) Stub.empty_state
  = (Ok [Stub.page1],
     mkState (store_split Stub.empty_state [Stub.page1] [Stub.page1])
       (trace Stub.empty_state ++
          [CallPyPDFLoader path; CallLoad;
           CallRecursiveCharacterTextSplitter 500 50;
           CallSplitDocuments (documents_of Stub.empty_state [Stub.page1]) [Stub.page1];
           CallHuggingFaceEmbeddings model_name;
           CallChromaFromDocuments
             (texts_of Stub.empty_state [Stub.page1] [Stub.page1]) [Stub.page1]])).
Proof.
  split; [reflexivity|].
  apply (@convert_pdf_to_embeddings_tab_free_chunks (Stub.library [Stub.page1])
           path 500 50 Stub.empty_state path [Stub.page1] (500, 50)%Z
           [Stub.page1] model_name);
    vm_compute; reflexivity.
Defined.

(** ** The cell "Read environment variables" *)

Section EnvironmentCellRuns.

Context `{H : Host}.
Implicit Types (p : process) (v answer : str).

Lemma process_eta p : mkProcess (environ p) (prompts p) = p.
Proof. now destruct p. Qed.

Lemma truth_Some v : truth (Some v) = true <-> v <> [].
Proof. destruct v; cbn; split; congruence. Qed.

(** X12: when the variable is already set to a non-empty value, the cell
    asks nothing and leaves the process as it is: the assignment in the
    [else] branch writes the value that is there. *)
Theorem read_environment_variables_keeps_a_set_key p v :
  getenv OPENAI_API_KEY p = Some v ->
  v <> [] ->
  putenv_error v = None ->
  read_environment_variables p = (Ok tt, p).
Proof.
  intros Hget Hne Hacc. unfold read_environment_variables.
  rewrite Hget. apply truth_Some in Hne. rewrite Hne. cbn [negb].
  unfold environ_setitem. rewrite Hacc.
  unfold getenv in Hget. rewrite insert_id by exact Hget.
  now rewrite process_eta.
Qed.

(** X13: what every run of the cell keeps to.  No other variable is
    touched; the user is asked once when the variable is unset or empty and
    not at all otherwise; when the cell returns the variable is set; when it
    raises the environment is as it was. *)
Theorem read_environment_variables_post p :
  (forall k, k <> OPENAI_API_KEY ->
             environ (read_environment_variables p).2 !! k = environ p !! k) /\
  prompts (read_environment_variables p).2
  = prompts p ++
    (if truth (getenv OPENAI_API_KEY p) then [] else [api_key_prompt]) /\
  ((read_environment_variables p).1 = Ok tt ->
   is_Some (environ (read_environment_variables p).2 !! OPENAI_API_KEY)) /\
  (forall e, (read_environment_variables p).1 = Raise e ->
             environ (read_environment_variables p).2 = environ p).
Proof.
  unfold read_environment_variables.
  destruct (truth (getenv OPENAI_API_KEY p)) eqn:Htruth; cbn [negb].
  - destruct (getenv OPENAI_API_KEY p) as [v|]; [|discriminate Htruth].
    unfold environ_setitem.
    destruct (putenv_error v) as [e|]; cbn [fst snd environ prompts].
    + repeat split; try (now rewrite app_nil_r); try discriminate.
    + repeat split; try (now rewrite app_nil_r); try discriminate.
      * intros k Hk. now rewrite lookup_insert_ne.
      * rewrite lookup_insert_eq. eauto.
  - unfold prompt_input.
    destruct (input api_key_prompt) as [answer|e]; cbn [fst snd environ prompts].
    + unfold environ_setitem.
      destruct (putenv_error answer) as [e|]; cbn [fst snd environ prompts].
      * repeat split; try discriminate.
      * repeat split; try discriminate.
        -- intros k Hk. now rewrite lookup_insert_ne.
        -- rewrite lookup_insert_eq. eauto.
    + repeat split; try discriminate.
Qed.

(** X14: the answer is not validated.  When the key is unset or empty,
    an answer that [os.environ] takes is stored as the key just as it was
    typed, the empty line included; an answer that [os.environ] refuses
    makes the cell raise the refusal, with the environment as it was.  An
    empty key still counts as missing, so the next run of the cell asks
    again, while after a non-empty answer the next run asks nothing and
    changes nothing. *)
Theorem read_environment_variables_stores_any_answer p answer :
  truth (getenv OPENAI_API_KEY p) = false ->
  input api_key_prompt = Ok answer ->
  match putenv_error answer with
  | Some e =>
      read_environment_variables p
      = (Raise e, mkProcess (environ p) (prompts p ++ [api_key_prompt]))
  | None =>
      exists p',
        read_environment_variables p = (Ok tt, p') /\
        getenv OPENAI_API_KEY p' = Some answer /\
        prompts p' = prompts p ++ [api_key_prompt] /\
        truth (getenv OPENAI_API_KEY p') = negb (bool_decide (answer = [])) /\
        (answer <> [] -> read_environment_variables p' = (Ok tt, p'))
  end.
Proof.
  intros Htruth Hin.
  destruct (putenv_error answer) as [e|] eqn:Hacc.
  { unfold read_environment_variables. rewrite Htruth. cbn [negb].
    unfold prompt_input. rewrite Hin. unfold environ_setitem.
    now rewrite Hacc. }
  exists (mkProcess (<[OPENAI_API_KEY := answer]> (environ p))
                    (prompts p ++ [api_key_prompt])).
  assert (getenv OPENAI_API_KEY
            (mkProcess (<[OPENAI_API_KEY := answer]> (environ p))
                       (prompts p ++ [api_key_prompt])) = Some answer) as Hget.
  { unfold getenv; cbn [environ]. apply lookup_insert_eq. }
  split; [|split; [exact Hget|split; [reflexivity|split]]].
  - unfold read_environment_variables. rewrite Htruth. cbn [negb].
    unfold prompt_input. rewrite Hin. unfold environ_setitem.
    now rewrite Hacc.
  - rewrite Hget. destruct answer; reflexivity.
  - intros Hne. unfold read_environment_variables.
    rewrite Hget. apply truth_Some in Hne. rewrite Hne. cbn [negb].
    unfold environ_setitem. rewrite Hacc. cbn [environ prompts].
    now rewrite insert_insert_eq.
Qed.

End EnvironmentCellRuns.

Lemma read_environment_variables_keeps_a_set_key_witness :
  @read_environment_variables (typing_host [])
    (mkProcess {[OPENAI_API_KEY := lit "sk-test"]} [])
  = (Ok tt, mkProcess {[OPENAI_API_KEY := lit "sk-test"]} []).
Proof.
  apply (@read_environment_variables_keeps_a_set_key (typing_host [])
           (mkProcess {[OPENAI_API_KEY := lit "sk-test"]} []) (lit "sk-test")).
  - apply lookup_singleton_eq.
  - discriminate.
  - reflexivity.
Defined.

Lemma read_environment_variables_post_witness :
  prompts (@read_environment_variables (typing_host (lit "sk-test"))
             (mkProcess ∅ [])).2
  = [api_key_prompt] /\
  is_Some (environ (@read_environment_variables (typing_host (lit "sk-test"))
                      (mkProcess ∅ [])).2 !! OPENAI_API_KEY).
Proof.
  destruct (@read_environment_variables_post (typing_host (lit "sk-test"))
              (mkProcess ∅ [])) as (_ & Hprompts & Hset & _).
  split; [exact Hprompts | apply Hset; reflexivity].
Defined.

Lemma read_environment_variables_stores_any_answer_witness :
  (exists p',
      @read_environment_variables (typing_host []) (mkProcess ∅ []) = (Ok tt, p') /\
      getenv OPENAI_API_KEY p' = Some [] /\
      truth (getenv OPENAI_API_KEY p') = false) /\
  (exists p',
      @read_environment_variables (typing_host (lit "sk-test")) (mkProcess ∅ [])
      = (Ok tt, p') /\
      getenv OPENAI_API_KEY p' = Some (lit "sk-test") /\
      @read_environment_variables (typing_host (lit "sk-test")) p' = (Ok tt, p')) /\
  @read_environment_variables (typing_host [0]) (mkProcess ∅ [])
  = (Raise (Raised "ValueError"), mkProcess ∅ [api_key_prompt]).
Proof.
  pose proof (@read_environment_variables_stores_any_answer (typing_host [])
                (mkProcess ∅ []) []) as Hempty.
  pose proof (@read_environment_variables_stores_any_answer
                (typing_host (lit "sk-test")) (mkProcess ∅ []) (lit "sk-test"))
    as Hkey.
  pose proof (@read_environment_variables_stores_any_answer (typing_host [0])
                (mkProcess ∅ []) [0]) as Hnul.
  specialize (Hempty ltac:(reflexivity) ltac:(reflexivity)).
  specialize (Hkey ltac:(reflexivity) ltac:(reflexivity)).
  specialize (Hnul ltac:(reflexivity) ltac:(reflexivity)).
  split; [|split].
  - destruct Hempty as (p' & Hrun & Hget & _ & Htruth & _).
    exists p'. split; [exact Hrun|]. split; [exact Hget | exact Htruth].
  - destruct Hkey as (p' & Hrun & Hget & _ & _ & Hagain).
    exists p'. split; [exact Hrun|]. split; [exact Hget|].
    apply Hagain. discriminate.
  - exact Hnul.
Defined.
